(** * Locating scanner findings in a document: selector normalisation,
      file reading and the gate callers

    A shallow embedding of the JavaScript/TypeScript sources of the
    security-gates editor extension:

    - [out/gates/kubesec/kubesecGate/kubesec.js]
        ([removeInvalidCharctersInSentence], [readFileByLines],
         [arrangeKubesecSelectorBeforeSearch],
         [showTextDocumentWithErrorsKubesec]);
    - [out/customGate/gate-functions.js] ([readFileByLines],
        [GateFunctions.getFiles]);
    - [src/gates/whispers/whispers-gate.ts] ([WhispersGate.scanData]);
    - [out/customGate/customer-gate.js] ([CustomGate.getMoreChildren]);
    - [src/gates/templateAnalyzer/gate.ts] ([Gate]);
    - [Template-gate.js] (the level filters of [getSarifFile]).

    JavaScript strings are modelled as [string]: a sequence of code units,
    of which the range 0..255 is represented.  Numbers that the code uses
    as indices or line numbers are [Z], so the sentinel [-1] is the
    source's own. *)

From Stdlib Require Import String Ascii List ZArith Bool Lia.
Import ListNotations.

Local Open Scope string_scope.
Local Open Scope list_scope.

(* ================================================================= *)
(** ** The string primitives of the JavaScript runtime that the code uses *)

Module Js.

(** Outcome of running a piece of JavaScript that may raise: the only
    exception the embedded code can raise by itself is the [TypeError] of
    reading a property of [undefined]. *)
Inductive Completion (A : Type) : Type :=
| Normal (value : A)
| TypeError.
Arguments Normal {A} value.
Arguments TypeError {A}.

(** [WhiteSpace] and [LineTerminator] code units below 256, the ones
    [String.prototype.trim] removes: TAB, LF, VT, FF, CR, SP, NBSP. *)
Definition isWhiteSpace (c : ascii) : bool :=
  let n := nat_of_ascii c in
  (Nat.eqb n 9 || Nat.eqb n 10 || Nat.eqb n 11 || Nat.eqb n 12
   || Nat.eqb n 13 || Nat.eqb n 32 || Nat.eqb n 160)%bool.

(** [s.trimStart()] *)
Fixpoint trimStart (s : string) : string :=
  match s with
  | EmptyString => EmptyString
  | String c rest => if isWhiteSpace c then trimStart rest else s
  end.

(** [s.trimEnd()] *)
Fixpoint trimEnd (s : string) : string :=
  match s with
  | EmptyString => EmptyString
  | String c rest =>
      match trimEnd rest with
      | EmptyString => if isWhiteSpace c then EmptyString else String c EmptyString
      | kept => String c kept
      end
  end.

(** [s.trim()] *)
Definition trim (s : string) : string := trimEnd (trimStart s).

(** [s.startsWith(pat)] *)
Fixpoint startsWith (s pat : string) : bool :=
  match pat, s with
  | EmptyString, _ => true
  | String _ _, EmptyString => false
  | String p pat', String c s' => (Ascii.eqb p c && startsWith s' pat')%bool
  end.

(** [s.indexOf(pat)], scanning from position [i]: the index of the first
    occurrence, or [-1]. *)
Fixpoint indexOfFrom (s pat : string) (i : Z) : Z :=
  if startsWith s pat then i
  else match s with
       | EmptyString => (-1)%Z
       | String _ s' => indexOfFrom s' pat (i + 1)
       end.

Definition indexOf (s pat : string) : Z := indexOfFrom s pat 0.

(** [s.includes(pat)] *)
Fixpoint includes (s pat : string) : bool :=
  if startsWith s pat then true
  else match s with
       | EmptyString => false
       | String _ s' => includes s' pat
       end.

(** [s.slice(b, e)]: negative positions count from the end, and both are
    clamped to the string. *)
Definition slice (s : string) (b e : Z) : string :=
  let len := Z.of_nat (String.length s) in
  let from := if (b <? 0)%Z then Z.max (len + b) 0 else Z.min b len in
  let to := if (e <? 0)%Z then Z.max (len + e) 0 else Z.min e len in
  substring (Z.to_nat from) (Z.to_nat (to - from)) s.

(** [s.replaceAll(c, '')] for a one-character [c]. *)
Fixpoint removeAll (c : ascii) (s : string) : string :=
  match s with
  | EmptyString => EmptyString
  | String x rest =>
      if Ascii.eqb x c then removeAll c rest else String x (removeAll c rest)
  end.

(** [s.split(sep)] for a one-character separator, which is all the code
    uses ([' '], ['.'] and ['\n']).  The result always has an element. *)
Fixpoint split (sep : ascii) (s : string) : list string :=
  match s with
  | EmptyString => [EmptyString]
  | String c rest =>
      if Ascii.eqb c sep then EmptyString :: split sep rest
      else match split sep rest with
           | [] => [String c EmptyString]
           | piece :: pieces => String c piece :: pieces
           end
  end.

(** [pieces.join(sep)], the inverse direction of [split]. *)
Fixpoint join (sep : ascii) (pieces : list string) : string :=
  match pieces with
  | [] => EmptyString
  | [piece] => piece
  | piece :: more => piece ++ String sep (join sep more)
  end.

(** [s[0]], [None] for [undefined]. *)
Definition charAt0 (s : string) : option ascii :=
  match s with
  | EmptyString => None
  | String c _ => Some c
  end.

(** [s.endsWith(suffix)] *)
Fixpoint endsWith (s suffix : string) : bool :=
  (String.eqb s suffix
   || match s with
      | EmptyString => false
      | String _ rest => endsWith rest suffix
      end)%bool.

(** [s.lastIndexOf(pat)], scanning from position [i]: the index of the last
    occurrence, or [-1]. *)
Fixpoint lastIndexOfFrom (s pat : string) (i : Z) : Z :=
  match s with
  | EmptyString => if startsWith s pat then i else (-1)%Z
  | String _ rest =>
      let later := lastIndexOfFrom rest pat (i + 1) in
      if (later =? -1)%Z then (if startsWith s pat then i else (-1)%Z)
      else later
  end.

Definition lastIndexOf (s pat : string) : Z := lastIndexOfFrom s pat 0.

(** [s.slice(b)]: up to the end of the string. *)
Definition sliceFrom (s : string) (b : Z) : string :=
  slice s b (Z.of_nat (String.length s)).

End Js.

Import Js.

(* ================================================================= *)
(** ** Data shared by the gates *)

(** The line buffer of one file: [string[]] in the source. *)
Definition Document : Type := list string.

Definition newline : ascii := ascii_of_nat 10.
Definition tab : ascii := ascii_of_nat 9.

(** What [hierarchySearchInFile] returns, with the field names its callers
    read: [searchResult.requestedLine], [searchResult.numOfTabs] and
    [searchResults.fileToSearchIn]. *)
Record SearchResult : Type := {
  requestedLine : Z;
  numOfTabs : Z;
  fileToSearchIn : Document
}.

(** [hierarchySearchInFile] as its callers see it.  The document argument
    is whatever [readFileByLines] returned, [None] being [undefined]; a
    result of [None] is a falsy value (the kubesec caller tests
    [if (searchResult)]). *)
Definition Locator : Type := option Document -> list string -> option SearchResult.

(** [fs.readFileSync(path, "utf8")]: the content, or [None] when it raises. *)
Definition FileSystem : Type := string -> option string.

(** What the code does to the editor, in the order it does it, together
    with a trace of the calls to [hierarchySearchInFile]. *)
Inductive Event : Type :=
| ShowInformationMessage (message : string)
| ShowErrorMessage (message : string)
| HighLightTextInFile (lineNumber columnNumber : Z)
| JumpSpecifiedLine (lineNumber : Z) (filePath : string)
| Searched (fileToSearchIn : option Document) (searchSentence : list string).

(** Code that acts on the editor and may raise: its completion and the
    events up to it. *)
Definition Run (A : Type) : Type := (Completion A * list Event)%type.

Definition ret {A} (a : A) : Run A := (Normal a, []).

Definition raise {A} : Run A := (TypeError, []).

Definition emit (e : Event) : Run unit := (Normal tt, [e]).

Definition lift {A} (c : Completion A) : Run A := (c, []).

Definition bind {A B} (m : Run A) (k : A -> Run B) : Run B :=
  match m with
  | (Normal a, log) => let (r, log') := k a in (r, log ++ log')
  | (TypeError, log) => (TypeError, log)
  end.

Declare Scope run_scope.
Delimit Scope run_scope with run.
Notation "x <- m ;; k" := (bind m (fun x => k))
  (at level 61, m at next level, right associativity) : run_scope.
Notation "m ;; k" := (bind m (fun _ => k))
  (at level 61, right associativity) : run_scope.

Definition outcome {A} (r : Run A) : Completion A := fst r.
Definition events {A} (r : Run A) : list Event := snd r.

(* ================================================================= *)
(** ** out/customGate/gate-functions.js *)

Module GateFunctions.

(** [vscode.window.showErrorMessage(message)] *)
Definition displayErrorMessage (message : string) : Run unit :=
  emit (ShowErrorMessage message).

(** [readFileByLines]: the [catch] shows a message and falls off the end
    of the function, so the result is [undefined]. *)
Definition readFileByLines (fs : FileSystem) (pathOfFileToSearchIn : string)
  : Run (option Document) :=
  match fs pathOfFileToSearchIn with
  | Some document =>
      let documentStringLines := split newline (trim document) in
      ret (Some documentStringLines)
  | None =>
      (displayErrorMessage "There is no such file!" ;;
       ret None)%run
  end.

(** [new GetFileSettings(fileExtension, pathToSearch)]; the second argument
    may be left out, and then reads as [undefined]. *)
Record GetFileSettings : Type := {
  fileExtension : list string;
  pathToSearch : option (list string)
}.

(** [GateFunctions.getFiles(searchSettings, files)].  [workspaceFolders] is
    [workspace.workspaceFolders?.map(elem => elem.uri.fsPath)], [None] when
    no folder is open; [getAllFilesSync] lists the files under a path.  An
    array is truthy also when it is empty, so [pathToSearch] is used
    whenever it is given; [files?.length > 0] fails for [undefined] and for
    the empty array. *)
Definition getFiles (workspaceFolders : option (list string))
    (getAllFilesSync : string -> list string)
    (searchSettings : GetFileSettings) (files : option (list string))
  : list string :=
  let myPath :=
    match workspaceFolders with Some folders => folders | None => [] end in
  fold_left
    (fun _files path =>
       fold_left
         (fun _files filename =>
            fold_left
              (fun _files fileExtension =>
                 if endsWith filename fileExtension
                 then _files ++ [filename] else _files)
              (fileExtension searchSettings) _files)
         (match files with
          | Some (changed :: more) => changed :: more
          | _ => getAllFilesSync path
          end)
         _files)
    (match pathToSearch searchSettings with
     | Some paths => paths
     | None => myPath
     end)
    [].

End GateFunctions.

(* ================================================================= *)
(** ** out/gates/kubesec/kubesecGate/kubesec.js *)

Module Kubesec.

(** [const kubesecSelectorInvalidCharcters = ['|', '==', '-'];] *)
Definition kubesecSelectorInvalidCharcters : list string := ["|"; "=="; "-"].

(** [removeInvalidCharctersInSentence]: the [forEach] reassigns
    [searchSentence] once per token, so every token is looked up in what
    the previous ones left. *)
Definition removeInvalidCharctersInSentence
    (searchSentence : string) (invalidCharcters : list string) : string :=
  fold_left
    (fun sentence ch =>
       let indexOfInvalidCharacter := indexOf sentence ch in
       if (indexOfInvalidCharacter =? -1)%Z then sentence
       else slice sentence 0 indexOfInvalidCharacter)
    invalidCharcters searchSentence.

(** [vscode.window.showInformationMessage(message)]: in this file the
    helper of that name shows an information message. *)
Definition displayErrorMessage (message : string) : Run unit :=
  emit (ShowInformationMessage message).

(** [readFileByLines], the copy of this file. *)
Definition readFileByLines (fs : FileSystem) (pathOfFileToSearchIn : string)
  : Run (option Document) :=
  match fs pathOfFileToSearchIn with
  | Some document =>
      let documentStringLines := split newline (trim document) in
      ret (Some documentStringLines)
  | None =>
      (displayErrorMessage "There is no such file!" ;;
       ret None)%run
  end.

(** The first statement of [arrangeKubesecSelectorBeforeSearch]:
    [if (searchSentence[0] === '.')
       searchSentence = searchSentence.slice(1, searchSentence.length)]. *)
Definition dropLeadingDot (searchSentence : string) : string :=
  match charAt0 searchSentence with
  | Some c =>
      if Ascii.eqb c "."%char
      then slice searchSentence 1 (Z.of_nat (String.length searchSentence))
      else searchSentence
  | None => searchSentence
  end.

(** [searchSentence.replaceAll(' ', '').split('.')] after the truncation. *)
Definition splitSelector (searchSentence : string) : list string :=
  split "."%char
    (removeAll " "%char
       (removeInvalidCharctersInSentence
          (dropLeadingDot searchSentence) kubesecSelectorInvalidCharcters)).

(** The two rewrites of the token list at the end of
    [arrangeKubesecSelectorBeforeSearch].  Reading [searchSentenceSplit[0]]
    of an empty array gives [undefined], whose [.includes] raises. *)
Definition stripArrayMarker (searchSentenceSplit : list string)
  : Completion (list string) :=
  match searchSentenceSplit with
  | [] => TypeError
  | first :: rest =>
      if includes first "containers[]"
      then Normal (slice (trim first) 0 (-2) :: rest)
      else Normal searchSentenceSplit
  end.

Definition collapseMetadata (searchSentenceSplit : list string)
  : Completion (list string) :=
  match searchSentenceSplit with
  | [] => TypeError
  | first :: _ =>
      if includes first "metadata" then Normal ["metadata"]
      else Normal searchSentenceSplit
  end.

(** [arrangeKubesecSelectorBeforeSearch(fileToSearchIn, searchSentence)];
    the first parameter is not used by the body. *)
Definition arrangeKubesecSelectorBeforeSearch
    (fileToSearchIn : option Document) (searchSentence : string)
  : Completion (list string) :=
  match stripArrayMarker (splitSelector searchSentence) with
  | TypeError => TypeError
  | Normal searchSentenceSplit => collapseMetadata searchSentenceSplit
  end.

(** One kubesec finding, of which the code reads [res['selector']]. *)
Record Finding : Type := { selector : string }.

(** The [vscode.TextDocument] handed to the caller, of which the code reads
    [textDocument.fileName] and [textDocument.uri.path]. *)
Record TextDocument : Type := { fileName : string; uriPath : string }.

Section Caller.

Variable fs : FileSystem.
Variable hierarchySearchInFile : Locator.

(** The body of [if (searchResult) { ... }]. *)
Definition showSearchResult (searchSentence : string)
    (textDocument : TextDocument) (searchResult : option SearchResult)
  : Run unit :=
  match searchResult with
  | Some searchResult =>
      let requestedLine := requestedLine searchResult in
      let numOfTabs := numOfTabs searchResult in
      if (requestedLine =? -1)%Z
      then displayErrorMessage (searchSentence ++ " not found!")
      else (emit (HighLightTextInFile requestedLine numOfTabs) ;;
            emit (JumpSpecifiedLine requestedLine (uriPath textDocument)))%run
  | None => ret tt
  end.

(** The [forEach] callback from the point where its [await] resumes with
    the lines of the file. *)
Definition resolveFinding (textDocument : TextDocument) (res : Finding)
    (documentText : option Document) : Run unit :=
  (let searchSentence := selector res in
   searchSentenceReadyToSearch <-
     lift (arrangeKubesecSelectorBeforeSearch documentText searchSentence) ;;
   emit (Searched documentText searchSentenceReadyToSearch) ;;
   showSearchResult searchSentence textDocument
     (hierarchySearchInFile documentText searchSentenceReadyToSearch))%run.

(** [showTextDocumentWithErrorsKubesec].  The callback is [async] and
    [forEach] does not wait for it: every callback runs up to its [await],
    which reads the file, before the first one resumes; the callbacks then
    resume in order, each with the lines its own read produced, and a
    callback that raises does not stop the others. *)
Definition showTextDocumentWithErrorsKubesec
    (kubesecResult : list Finding) (textDocument : TextDocument)
  : list Event :=
  let reads :=
    map (fun _ : Finding => readFileByLines fs (fileName textDocument))
        kubesecResult in
  flat_map events reads
  ++ flat_map
       (fun started : Finding * Run (option Document) =>
          match outcome (snd started) with
          | Normal documentText =>
              events (resolveFinding textDocument (fst started) documentText)
          | TypeError => []
          end)
       (combine kubesecResult reads).

End Caller.

(** [const fileType = '.yaml';] *)
Definition fileType : string := ".yaml".

(** [getFiles]: the files under the folders of the workspace whose name
    ends with [fileType]. *)
Definition getFiles (workspaceFolders : option (list string))
    (getAllFilesSync : string -> list string) : list string :=
  let myPath :=
    match workspaceFolders with Some folders => folders | None => [] end in
  fold_left
    (fun files path =>
       fold_left
         (fun files filename =>
            if endsWith filename fileType then files ++ [filename] else files)
         (getAllFilesSync path) files)
    myPath [].

End Kubesec.

(* ================================================================= *)
(** ** src/gates/whispers/whispers-gate.ts *)

Module Whispers.

(** [new Location(lineNumber, columnNumber)] and
    [new GateResult(location, message)] of [customGate/gate-data]. *)
Record Location : Type := { lineNumber : Z; columnNumber : Z }.
Record GateResult : Type := { location : Location; message : string }.

(** [sec.split(' ')[0]]: [split] never returns an empty array, so the
    default is not taken. *)
Definition firstToken (sec : string) : string :=
  hd EmptyString (split " "%char sec).

(** The search sentence of one secret: [[sec.split(' ')[0]]]. *)
Definition secretSearchSentence (sec : string) : list string :=
  [firstToken sec].

Section ScanData.

Variable fs : FileSystem.
Variable hierarchySearchInFile : Locator.

(** [res['secrets'].forEach((sec) => { ... })] with the variable
    [documentText] it reassigns; the result is what it pushes to
    [messages].  Reading [.fileToSearchIn] of a falsy result raises and
    ends the loop. *)
Fixpoint forEachSecret (documentText : option Document) (secrets : list string)
  : Run (list GateResult) :=
  match secrets with
  | [] => ret []
  | sec :: later =>
      (emit (Searched documentText (secretSearchSentence sec)) ;;
       match hierarchySearchInFile documentText (secretSearchSentence sec) with
       | None => raise
       | Some searchResults =>
           let documentText := Some (fileToSearchIn searchResults) in
           let pushed :=
             {| location := {| lineNumber := requestedLine searchResults;
                               columnNumber := 0 |};
                message := sec |} in
           messages <- forEachSecret documentText later ;;
           ret (pushed :: messages)
       end)%run
  end.

(** The part of the [whispersResultArr.forEach] callback that locates the
    secrets of one file: [readFileByLines(filePath)] and the loop over
    [res['secrets']] (it is entered only when that array is not empty). *)
Definition scanSecretsOfFile (filePath : string) (secrets : list string)
  : Run (list GateResult) :=
  match secrets with
  | [] => ret []
  | _ =>
      (documentText <- GateFunctions.readFileByLines fs filePath ;;
       forEachSecret documentText secrets)%run
  end.

End ScanData.

(** [filePath.slice(filePath.lastIndexOf('\\'), filePath.length).slice(1)],
    the name under which the secrets of a file are listed. *)
Definition fileNameOf (filePath : string) : string :=
  sliceFrom
    (slice filePath (lastIndexOf filePath "\")
       (Z.of_nat (String.length filePath)))
    1.

End Whispers.

(* ================================================================= *)
(** ** src/search.ts: the hierarchy locator *)

Module Search.

(** Modelled from the spec: the indentation of a line, "leading
    indentation" counted in characters (spaces or tabs); [search.ts] is not
    among the sources. *)
Fixpoint indentation (line : string) : nat :=
  match line with
  | String c rest =>
      if (Ascii.eqb c " "%char || Ascii.eqb c tab)%bool
      then S (indentation rest) else 0
  | EmptyString => 0
  end.

(** Modelled from the spec: the "de-indented" text of a line. *)
Fixpoint deindent (line : string) : string :=
  match line with
  | String c rest =>
      if (Ascii.eqb c " "%char || Ascii.eqb c tab)%bool
      then deindent rest else line
  | EmptyString => EmptyString
  end.

(** Modelled from the spec: the text up to the first [':'], where the
    "declared key token" of a line ends. *)
Fixpoint upToColon (text : string) : string :=
  match text with
  | String c rest =>
      if Ascii.eqb c ":"%char then EmptyString else String c (upToColon rest)
  | EmptyString => EmptyString
  end.

(** Modelled from the spec: "the line's declared key token", the
    de-indented text up to the colon.  The ["- "] of a sequence item is not
    part of the key: in the scenario of the specification the line
    [    - securityContext:] satisfies the segment [securityContext]. *)
Definition keyToken (line : string) : string :=
  let text := deindent line in
  upToColon (if startsWith text "- " then slice text 2 (Z.of_nat (String.length text))
             else text).

(** Modelled from the spec: a line that was removed from the working
    buffer.  The buffer keeps the place of such a line, which it leaves
    empty, so that every line after it has in the buffer the index it has
    in the original document. *)
Definition removedLine (line : string) : bool := String.eqb line "".

(** Modelled from the spec: "a line matches the current target segment if
    its de-indented textual key equals the segment's name"; a removed line
    matches nothing. *)
Definition lineMatches (line segment : string) : bool :=
  (negb (removedLine line) && String.eqb (keyToken line) segment)%bool.

(** Modelled from the spec: depth is "counted in structural units, not raw
    character counts".  Of the lines open above a line indented by [width],
    those that enclose it are the ones indented less; their number is the
    depth of the line (3 for the last line of the scenario). *)
Fixpoint enclosing (width : nat) (open : list nat) : list nat :=
  match open with
  | [] => []
  | w :: outer => if Nat.leb width w then enclosing width outer else open
  end.

(** Modelled from the spec: the single pass over the lines (steps 1 to 7
    of the HierarchyLocator).  [index] is the position of the first
    of [lines] in the document, [open] the indentations of the lines that
    are open above it, [region] the depth of the line that matched the
    previous segment (the lines nested under it are the deeper ones that
    follow it), and [segments] the segments still to satisfy.  The result
    is the index and the depth of the line that satisfies the last segment
    and the lines after it. *)
Fixpoint locate (lines : Document) (index : nat) (open : list nat)
    (region : option nat) (segments : list string)
  : option (nat * nat * Document) :=
  match lines with
  | [] => None
  | line :: rest =>
      let width := indentation line in
      let above := enclosing width open in
      let depth := List.length above in
      let leftRegion :=
        match region with
        | Some matchedDepth => Nat.leb depth matchedDepth
        | None => false
        end in
      match segments with
      | [] => None
      | segment :: deeper =>
          if leftRegion then None
          else if lineMatches line segment then
            match deeper with
            | [] => Some (index, depth, rest)
            | _ :: _ => locate rest (S index) (width :: above) (Some depth) deeper
            end
          else locate rest (S index) (width :: above) region segments
      end
  end.

(** Modelled from the spec: [hierarchySearchInFile] of [src/search.ts],
    which is imported by [kubesec.js], [whispers-gate.ts] and
    [extension.ts] but is not among the sources.  It follows the
    HierarchyLocator of the specification: a single pass that keeps a
    target segment and the nesting depth of each line (in structural
    units: the number of enclosing lines); a line matches when its key
    token equals the segment; after a match that is not the last segment
    the scan goes on among the lines nested under the matched line and
    fails when that region is left; the first line that satisfies the last
    segment gives [requestedLine] and the depth ([numOfTabs] for the
    callers).  [requestedLine] is "this line's absolute index in the
    original document", also when the search is made in a buffer that an
    earlier search returned ("two sequential calls return L1 then L2");
    [scanData] likewise takes the [requestedLine] of every search in the
    threaded buffer as a line of the file.  So in the returned buffer
    ([fileToSearchIn] for the callers, [remainingDocument] in the
    specification) the matched line and "everything up to and including
    it" are removed in place: those lines are left empty and the lines
    after them stay where they are.  An empty segment sequence, and a
    sequence that is not found, give [-1] and leave the buffer as it
    was. *)
Definition hierarchySearchInFile (document : Document) (segments : list string)
  : SearchResult :=
  match locate document 0 [] None segments with
  | Some (index, depth, remaining) =>
      {| requestedLine := Z.of_nat index;
         numOfTabs := Z.of_nat depth;
         fileToSearchIn := repeat EmptyString (S index) ++ remaining |}
  | None =>
      {| requestedLine := (-1)%Z; numOfTabs := 0%Z; fileToSearchIn := document |}
  end.

(** Modelled from the spec: [hierarchySearchInFile] as a [Locator].  It is
    given the lines that [readFileByLines] returned; the specification says
    nothing of a call with [undefined], for which no result is modelled. *)
Definition locator : Locator :=
  fun documentText segments =>
    match documentText with
    | Some document => Some (hierarchySearchInFile document segments)
    | None => None
    end.

End Search.

(* ================================================================= *)
(** ** The specification's own words, for comparison with the code *)

Module Spec.

(** "a fixed set of comparison/operator tokens -- [|], [==], [-]" *)
Definition operatorTokens : list string := ["|"; "=="; "-"].

(** "Truncate the string at the first occurrence of any of" the operator
    tokens: the least of the first-occurrence indices of the tokens that
    occur. *)
Definition earliestInvalid (searchSentence : string) : option Z :=
  fold_right
    (fun ch earliest =>
       let i := indexOf searchSentence ch in
       if (i =? -1)%Z then earliest
       else match earliest with
            | Some j => Some (Z.min i j)
            | None => Some i
            end)
    None operatorTokens.

Definition truncateAtEarliest (searchSentence : string) : string :=
  match earliestInvalid searchSentence with
  | Some cut => slice searchSentence 0 cut
  | None => searchSentence
  end.

(** "trimmed of a single trailing empty line" *)
Fixpoint dropTrailingEmptyLine (lines : list string) : list string :=
  match lines with
  | [] => []
  | [last] => if String.eqb last EmptyString then [] else [last]
  | line :: more => line :: dropTrailingEmptyLine more
  end.

(** "one source file's content split on newlines, trimmed of a single
    trailing empty line" *)
Definition documentOf (content : string) : Document :=
  dropTrailingEmptyLine (split newline content).

(** The text before the first white-space character. *)
Fixpoint upToWhiteSpace (text : string) : string :=
  match text with
  | String c rest =>
      if isWhiteSpace c then EmptyString else String c (upToWhiteSpace rest)
  | EmptyString => EmptyString
  end.

(** "taking only the first whitespace-delimited token": white space
    delimits the tokens, so the first token begins at the first character
    that is not white space and ends before the next white space (the empty
    string stands for a fragment without token). *)
Definition firstWhitespaceToken (fragment : string) : string :=
  upToWhiteSpace (trimStart fragment).

End Spec.

(* ================================================================= *)
(** ** out/customGate/customer-gate.js *)

Module CustomGate.

(** [vscode.TreeItemCollapsibleState] *)
Inductive TreeItemCollapsibleState : Type :=
| NotCollapsible
| Collapsed
| Expanded.

(** [FileMessages] and [ResultsList] of [customGate/gate-data], with the
    fields the gates read and write; [result] may be [undefined]
    ([element.result?.map], [secrets.data[0].result!]). *)
Record FileMessages : Type := {
  filePath : string;
  fileName : string;
  messages : list Whispers.GateResult
}.

Record ResultsList : Type := {
  label : string;
  result : option (list FileMessages)
}.

(** [new Category(l, TreeItemCollapsibleState.Collapsed, data)], with the
    fields as [getMoreChildren] passes and reads them (the class itself is
    not among the sources); [data] is what [find] returned, [undefined]
    when no element has the label. *)
Record Category : Type := {
  categoryLabel : string;
  categoryState : TreeItemCollapsibleState;
  data : option ResultsList
}.

(** The tree items [getMoreChildren] answers with. *)
Inductive TreeItem : Type :=
| CategoryItem (category : Category)
| PlainItem (itemLabel : string) (itemState : TreeItemCollapsibleState).

(** [this.gateScanData?.data.find((e) => e.label === l)]; [gateScanData]
    is [None] for [undefined], and otherwise its [data] array. *)
Definition findResults (gateScanData : option (list ResultsList)) (l : string)
  : option ResultsList :=
  match gateScanData with
  | Some data => find (fun e => String.eqb (label e) l) data
  | None => None
  end.

(** The loop [for (let item of resultArr)] of [getMoreChildren]: reading
    [item.data.result.length] raises when [item.data] or its [result] is
    [undefined]. *)
Fixpoint firstWithResults (items resultArr : list Category)
  : Completion (list TreeItem) :=
  match items with
  | [] => Normal [PlainItem "No results have been found" NotCollapsible]
  | item :: later =>
      match data item with
      | None => TypeError
      | Some itemData =>
          match result itemData with
          | None => TypeError
          | Some found =>
              if Nat.ltb 0 (List.length found)
              then Normal (map CategoryItem resultArr)
              else firstWithResults later resultArr
          end
      end
  end.

(** [getMoreChildren(element)], as a function of [this.getIsActive()],
    [this.labels] and [this.gateScanData]; the assignment to
    [this.myProvider] does not bear on the result. *)
Definition getMoreChildren (isActive : bool) (labels : list string)
    (gateScanData : option (list ResultsList)) : Completion (list TreeItem) :=
  if isActive then
    let resultArr :=
      map (fun l =>
             {| categoryLabel := l;
                categoryState := Collapsed;
                data := findResults gateScanData l |})
          labels in
    firstWithResults resultArr resultArr
  else Normal [].

End CustomGate.

(* ================================================================= *)
(** ** src/gates/templateAnalyzer/gate.ts *)

Module Gate.

(** The object [microsoft.security.gate.gates.activity.settings] of the
    configuration, read as a map from gate labels; a configuration without
    it reads as [{}]. *)
Definition Settings : Type := string -> option bool.

Definition noSettings : Settings := fun _ => None.

(** [{ ...settings, ...{[label]: value} }] *)
Definition withSetting (settings : Settings) (label : string) (value : bool)
  : Settings :=
  fun key => if String.eqb key label then Some value else settings key.

(** The fields of a [Gate]: the constructor parameters [label], [context]
    and [isActive], which are public properties, and the private
    [_isActive]. *)
Record Gate : Type := {
  label : string;
  context : string;
  isActive : bool;
  _isActive : bool
}.

(** What a gate does to the editor. *)
Inductive Effect : Type :=
| ExecuteSetContext (key : string) (value : bool)
| ShowInformation (message : string).

(** [getIsActive()] *)
Definition getIsActive (gate : Gate) : bool := _isActive gate.

(** [setIsActive(value)]: the command is chosen by [this.isActive], the
    property the constructor set, not by [value]. *)
Definition setIsActive (value : bool) (gate : Gate) (settings : Settings)
  : Gate * Settings * list Effect :=
  let gate' :=
    {| label := label gate; context := context gate;
       isActive := isActive gate; _isActive := value |} in
  let command :=
    if isActive gate' then ExecuteSetContext "templateGateActive" true
    else ExecuteSetContext "templateGateActive" false in
  let newSetting := withSetting settings (label gate') value in
  (gate', newSetting, [command]).

(** [activate()] *)
Definition activate (gate : Gate) (settings : Settings)
  : Gate * Settings * list Effect :=
  let '(gate', settings', effects) := setIsActive true gate settings in
  (gate', settings',
   effects ++ [ShowInformation "The gate was successfully activated"]).

(** [deactivate()] *)
Definition deactivate (gate : Gate) (settings : Settings)
  : Gate * Settings * list Effect :=
  let '(gate', settings', effects) := setIsActive false gate settings in
  (gate', settings',
   effects ++ [ShowInformation "The gate was successfully deactivated"]).

(** A sequence of calls, each finished before the next: [true] for
    [activate()], [false] for [deactivate()]. *)
Fixpoint calls (requests : list bool) (gate : Gate) (settings : Settings)
  : Gate * Settings * list Effect :=
  match requests with
  | [] => (gate, settings, [])
  | request :: later =>
      let '(gate', settings', effects) :=
        (if request then activate else deactivate) gate settings in
      let '(gate'', settings'', effects') := calls later gate' settings' in
      (gate'', settings'', effects ++ effects')
  end.

End Gate.

(* ================================================================= *)
(** ** Template-gate.js: the levels of [getSarifFile] *)

Module TemplateAnalyzer.

Section GetSarifFile.

(** An element of [data.runs[0].results] and its [level] property, [None]
    when the element has none. *)
Variable Result : Type.
Variable level : Result -> option string.

(** [e.level === name] *)
Definition hasLevel (name : string) (e : Result) : bool :=
  match level e with
  | Some l => String.eqb l name
  | None => false
  end.

(** [dataResult?.filter((e) => { return e.level === 'error'; })] and the
    three filters after it; [dataResult] is [undefined] when the report has
    no run or the run no results. *)
Definition errorDataResult (dataResult : option (list Result)) :=
  option_map (filter (hasLevel "error")) dataResult.

Definition warningDataResult (dataResult : option (list Result)) :=
  option_map (filter (hasLevel "warning")) dataResult.

Definition noteDataResult (dataResult : option (list Result)) :=
  option_map (filter (hasLevel "note")) dataResult.

Definition unLevelDataResult (dataResult : option (list Result)) :=
  option_map (filter (hasLevel "undefined")) dataResult.

End GetSarifFile.

End TemplateAnalyzer.

(** Every character of a string satisfies a test. *)
Fixpoint allChars (test : ascii -> bool) (s : string) : bool :=
  match s with
  | EmptyString => true
  | String c rest => (test c && allChars test rest)%bool
  end.

(** The first [n] characters of a string. *)
Fixpoint take (n : nat) (s : string) : string :=
  match n, s with
  | S n', String c rest => String c (take n' rest)
  | _, _ => EmptyString
  end.

(** The position of the first occurrence of [pat] in [s], as a natural
    number: what [indexOf] computes, without the sentinel. *)
Fixpoint firstOccurrence (s pat : string) : option nat :=
  if startsWith s pat then Some 0%nat
  else match s with
       | EmptyString => None
       | String _ rest => option_map S (firstOccurrence rest pat)
       end.

(** [s] up to the first occurrence of [pat]. *)
Fixpoint cutAt (pat s : string) : string :=
  if startsWith s pat then EmptyString
  else match s with
       | EmptyString => EmptyString
       | String c rest => String c (cutAt pat rest)
       end.

(** [s] up to the first position where one of the three tokens starts. *)
Fixpoint cutAtAny (s : string) : string :=
  if (startsWith s "|" || startsWith s "==" || startsWith s "-")%bool
  then EmptyString
  else match s with
       | EmptyString => EmptyString
       | String c rest => String c (cutAtAny rest)
       end.

(** The lesser of two positions that may be absent. *)
Definition earlier (a b : option nat) : option nat :=
  match a, b with
  | Some i, Some j => Some (Nat.min i j)
  | Some i, None => Some i
  | None, _ => b
  end.

(** The calls to [hierarchySearchInFile] recorded in a log, in order. *)
Fixpoint searches (log : list Event) : list (option Document * list string) :=
  match log with
  | [] => []
  | Searched documentText searchSentence :: later =>
      (documentText, searchSentence) :: searches later
  | _ :: later => searches later
  end.

(** A sequence of calls is threaded from [documentText] when the first
    call is made on [documentText] and every later call on the buffer that
    the call before it returned; a call without a result is the last. *)
Fixpoint threaded (hierarchySearchInFile : Locator)
    (documentText : option Document)
    (calls : list (option Document * list string)) : Prop :=
  match calls with
  | [] => True
  | (searched, searchSentence) :: later =>
      searched = documentText
      /\ match hierarchySearchInFile searched searchSentence with
         | Some searchResult =>
             threaded hierarchySearchInFile
               (Some (fileToSearchIn searchResult)) later
         | None => later = []
         end
  end.

(** File systems with one content for every path, and with no file. *)
Definition everyFile (content : string) : FileSystem := fun _ => Some content.
Definition noFile : FileSystem := fun _ => None.

Definition lineBreak : string := String newline "".

(** A file with blank lines and indentation around its text. *)
Definition paddedContent : string :=
  lineBreak ++ "  key: value" ++ lineBreak ++ lineBreak.

(** A manifest in which the same path occurs twice. *)
Definition duplicatedContent : string :=
  "spec:" ++ lineBreak ++ "  hostPID: true" ++ lineBreak ++ "other:"
  ++ lineBreak ++ "spec:" ++ lineBreak ++ "  hostPID: true" ++ lineBreak.

Definition duplicatedDocument : Document :=
  ["spec:"; "  hostPID: true"; "other:"; "spec:"; "  hostPID: true"].

Definition manifest : Kubesec.TextDocument :=
  {| Kubesec.fileName := "pod.yaml"; Kubesec.uriPath := "/pod.yaml" |}.



(** A secret fragment whose first white space is a tab. *)
Definition tabbedFragment : string := "AKIA" ++ String tab "key extra".

(** The document of the specification's scenarios. *)
Definition scenario : Document :=
  ["spec:"; "  containers:"; "    - securityContext:"; "        runAsUser: 20000"].

(** The string without its first [n] characters. *)
Fixpoint drop (n : nat) (s : string) : string :=
  match n, s with
  | S n', String _ rest => drop n' rest
  | _, _ => s
  end.

(** The position of the last occurrence of [pat] in [s], as a natural
    number: what [lastIndexOf] computes, without the sentinel. *)
Fixpoint lastOccurrence (s pat : string) : option nat :=
  match s with
  | EmptyString => if startsWith s pat then Some 0%nat else None
  | String _ rest =>
      match lastOccurrence rest pat with
      | Some n => Some (S n)
      | None => if startsWith s pat then Some 0%nat else None
      end
  end.

(** Characters that never occur in a segment of a normalised selector. *)
Definition separatorChar (c : ascii) : bool :=
  (Ascii.eqb c " "%char || Ascii.eqb c "."%char
   || Ascii.eqb c "|"%char || Ascii.eqb c "-"%char)%bool.

Definition plainChar (c : ascii) : bool := negb (separatorChar c).

(** The pushes of one file name in [GateFunctions.getFiles]: one for every
    extension the name ends with. *)
Definition extensionMatches (extensions : list string) (filename : string)
  : list string :=
  flat_map
    (fun extension => if endsWith filename extension then [filename] else [])
    extensions.

(** The file names [GateFunctions.getFiles] goes through for a path. *)
Definition candidates (getAllFilesSync : string -> list string)
    (files : option (list string)) (path : string) : list string :=
  match files with
  | Some (changed :: more) => changed :: more
  | _ => getAllFilesSync path
  end.

(** The paths [GateFunctions.getFiles] goes through. *)
Definition searchedPaths (workspaceFolders : option (list string))
    (searchSettings : GateFunctions.GetFileSettings) : list string :=
  match GateFunctions.pathToSearch searchSettings with
  | Some paths => paths
  | None =>
      match workspaceFolders with Some folders => folders | None => [] end
  end.

(** A category whose data has at least one result. *)
Definition hasResults (item : CustomGate.Category) : bool :=
  match CustomGate.data item with
  | Some itemData =>
      match CustomGate.result itemData with
      | Some (_ :: _) => true
      | _ => false
      end
  | None => false
  end.

(** A category whose data and results can be read. *)
Definition readable (item : CustomGate.Category) : Prop :=
  exists itemData found,
    CustomGate.data item = Some itemData
    /\ CustomGate.result itemData = Some found.

(** The categories [getMoreChildren] builds, one for each label. *)
Definition categories (labels : list string)
    (gateScanData : option (list CustomGate.ResultsList))
  : list CustomGate.Category :=
  map (fun l =>
         {| CustomGate.categoryLabel := l;
            CustomGate.categoryState := CustomGate.Collapsed;
            CustomGate.data := CustomGate.findResults gateScanData l |})
      labels.

(** The levels [getSarifFile] shows. *)
Definition shownLevel {Result : Type} (level : Result -> option string)
    (e : Result) : bool :=
  (TemplateAnalyzer.hasLevel Result level "error" e
   || TemplateAnalyzer.hasLevel Result level "warning" e
   || TemplateAnalyzer.hasLevel Result level "note" e
   || TemplateAnalyzer.hasLevel Result level "undefined" e)%bool.

(* ================================================================= *)
(** * Properties *)

Local Open Scope Z_scope.

Example arrange_serviceAccountName :
  Kubesec.arrangeKubesecSelectorBeforeSearch None ".spec .serviceAccountName"
  = Normal ["spec"; "serviceAccountName"].
Proof. reflexivity. Qed.

Example arrange_containers_first :
  Kubesec.arrangeKubesecSelectorBeforeSearch None
    "containers[] .securityContext .runAsUser -gt 10000"
  = Normal ["containers"; "securityContext"; "runAsUser"].
Proof. reflexivity. Qed.

Example arrange_drop_index :
  Kubesec.arrangeKubesecSelectorBeforeSearch None
    "containers[] .securityContext .capabilities .drop | index(ALL)"
  = Normal ["containers"; "securityContext"; "capabilities"; "drop"].
Proof. reflexivity. Qed.

Example locate_scenario :
  Search.hierarchySearchInFile scenario
    ["spec"; "containers"; "securityContext"; "runAsUser"]
  = {| requestedLine := 3; numOfTabs := 3; fileToSearchIn := [""; ""; ""; ""] |}.
Proof. reflexivity. Qed.

Example locate_scenario_absent :
  requestedLine (Search.hierarchySearchInFile scenario ["spec"; "volumes"]) = -1.
Proof. reflexivity. Qed.

(* ----------------------------------------------------------------- *)
(** ** Strings *)

Lemma indexOfFrom_firstOccurrence (s pat : string) (i : Z) :
  indexOfFrom s pat i =
  match firstOccurrence s pat with
  | Some n => i + Z.of_nat n
  | None => -1
  end.
Proof.
  revert i; induction s as [|c rest IH]; intros i;
    cbn [indexOfFrom firstOccurrence].
  - destruct (startsWith "" pat); lia.
  - destruct (startsWith (String c rest) pat); [lia|].
    rewrite IH. destruct (firstOccurrence rest pat); cbn [option_map]; lia.
Qed.

Lemma substring_take (n : nat) (s : string) : substring 0 n s = take n s.
Proof.
  revert s; induction n as [|n IH]; intros [|c rest]; simpl; try reflexivity.
  now rewrite IH.
Qed.

Lemma take_beyond (n : nat) (s : string) :
  (String.length s <= n)%nat -> take n s = s.
Proof.
  revert s; induction n as [|n IH]; intros [|c rest]; simpl; intros H;
    try reflexivity; try lia.
  rewrite IH by lia. reflexivity.
Qed.

Lemma take_min (n : nat) (s : string) :
  take (Nat.min n (String.length s)) s = take n s.
Proof.
  revert s; induction n as [|n IH]; intros [|c rest]; simpl; try reflexivity.
  now rewrite IH.
Qed.

Lemma slice_prefix (s : string) (n : nat) : slice s 0 (Z.of_nat n) = take n s.
Proof.
  unfold slice.
  replace (0 <? 0) with false by reflexivity.
  replace (Z.of_nat n <? 0) with false by (symmetry; apply Z.ltb_ge; lia).
  rewrite Z.min_l by lia. rewrite Z.sub_0_r.
  rewrite <- Nat2Z.inj_min, Nat2Z.id. simpl Z.to_nat.
  rewrite substring_take. apply take_min.
Qed.

Lemma cutAt_firstOccurrence (pat s : string) :
  cutAt pat s =
  match firstOccurrence s pat with
  | Some n => take n s
  | None => s
  end.
Proof.
  induction s as [|c rest IH]; cbn [cutAt firstOccurrence].
  - destruct (startsWith "" pat); reflexivity.
  - destruct (startsWith (String c rest) pat); [reflexivity|].
    rewrite IH. destruct (firstOccurrence rest pat); reflexivity.
Qed.

(** One round of the loop of [removeInvalidCharctersInSentence]. *)
Lemma truncation_round (sentence ch : string) :
  (if indexOf sentence ch =? -1 then sentence
   else slice sentence 0 (indexOf sentence ch))
  = cutAt ch sentence.
Proof.
  unfold indexOf. rewrite indexOfFrom_firstOccurrence, cutAt_firstOccurrence.
  destruct (firstOccurrence sentence ch) as [n|]; [|reflexivity].
  replace (0 + Z.of_nat n =? -1) with false by (symmetry; apply Z.eqb_neq; lia).
  apply slice_prefix.
Qed.

Lemma removeInvalid_sequential (searchSentence : string) :
  Kubesec.removeInvalidCharctersInSentence searchSentence
    Kubesec.kubesecSelectorInvalidCharcters
  = cutAt "-" (cutAt "==" (cutAt "|" searchSentence)).
Proof.
  unfold Kubesec.removeInvalidCharctersInSentence,
    Kubesec.kubesecSelectorInvalidCharcters.
  cbn [fold_left]. now rewrite !truncation_round.
Qed.

Lemma startsWith_empty (s : string) : startsWith s "" = true.
Proof. destruct s; reflexivity. Qed.

Lemma startsWith_one (c p : ascii) (rest : string) :
  startsWith (String c rest) (String p "") = Ascii.eqb p c.
Proof. cbn. rewrite startsWith_empty. apply andb_true_r. Qed.

Lemma cutAt_cons (pat : string) (c : ascii) (rest : string) :
  cutAt pat (String c rest) =
  if startsWith (String c rest) pat then "" else String c (cutAt pat rest).
Proof. reflexivity. Qed.

Lemma cutAt_empty (p : ascii) (pat : string) : cutAt (String p pat) "" = "".
Proof. reflexivity. Qed.

(** Cutting at [|] does not change whether a string starts with [=]. *)
Lemma startsWith_eq_after_bar (s : string) :
  startsWith (cutAt "|" s) "=" = startsWith s "=".
Proof.
  destruct s as [|c rest]; [reflexivity|].
  rewrite cutAt_cons, !startsWith_one.
  destruct (Ascii.eqb_spec "|"%char c) as [<-|]; [reflexivity|].
  now rewrite startsWith_one.
Qed.

(** The three cuts of the loop, one after the other, stop where the first
    of the three tokens starts. *)
Lemma sequential_cuts (s : string) :
  cutAt "-" (cutAt "==" (cutAt "|" s)) = cutAtAny s.
Proof.
  induction s as [|c rest IH]; [reflexivity|].
  cbn [cutAtAny]. rewrite (cutAt_cons "|"), !startsWith_one.
  destruct (Ascii.eqb_spec "|"%char c) as [<-|Hbar]; [reflexivity|].
  cbn [orb].
  rewrite (cutAt_cons "==").
  change (startsWith (String c (cutAt "|" rest)) "==")
    with (Ascii.eqb "="%char c && startsWith (cutAt "|" rest) "=")%bool.
  change (startsWith (String c rest) "==")
    with (Ascii.eqb "="%char c && startsWith rest "=")%bool.
  rewrite startsWith_eq_after_bar.
  destruct (Ascii.eqb "="%char c && startsWith rest "=")%bool; [reflexivity|].
  cbn [orb].
  rewrite (cutAt_cons "-"), startsWith_one.
  destruct (Ascii.eqb "-"%char c); [reflexivity|].
  now rewrite IH.
Qed.

Lemma earlier_zero_l (b : option nat) : earlier (Some 0%nat) b = Some 0%nat.
Proof. destruct b; reflexivity. Qed.

Lemma earlier_zero_r (a : option nat) : earlier a (Some 0%nat) = Some 0%nat.
Proof. destruct a as [i|]; cbn; [now rewrite Nat.min_0_r|reflexivity]. Qed.

Lemma earlier_succ (a b : option nat) :
  earlier (option_map S a) (option_map S b) = option_map S (earlier a b).
Proof. destruct a, b; reflexivity. Qed.

(** The least first occurrence of the three tokens. *)
Lemma earliestInvalid_firstOccurrence (s : string) :
  Spec.earliestInvalid s =
  option_map Z.of_nat
    (earlier (firstOccurrence s "|")
       (earlier (firstOccurrence s "==") (firstOccurrence s "-"))).
Proof.
  unfold Spec.earliestInvalid, Spec.operatorTokens, indexOf.
  cbn [fold_right]. rewrite !indexOfFrom_firstOccurrence.
  destruct (firstOccurrence s "|") as [a|],
           (firstOccurrence s "==") as [b|],
           (firstOccurrence s "-") as [d|]; cbn [earlier option_map];
    repeat match goal with
           | |- context [(0 + Z.of_nat ?n =? -1)] =>
               replace (0 + Z.of_nat n =? -1) with false
                 by (symmetry; apply Z.eqb_neq; lia)
           end;
    rewrite ?Z.eqb_refl; cbn [Z.add]; rewrite ?Nat2Z.inj_min; reflexivity.
Qed.

Lemma cutAtAny_earliest (s : string) :
  cutAtAny s =
  match earlier (firstOccurrence s "|")
          (earlier (firstOccurrence s "==") (firstOccurrence s "-")) with
  | Some n => take n s
  | None => s
  end.
Proof.
  induction s as [|c rest IH]; [reflexivity|].
  cbn [cutAtAny firstOccurrence].
  destruct (startsWith (String c rest) "|"); cbn [orb].
  { now rewrite earlier_zero_l. }
  destruct (startsWith (String c rest) "=="); cbn [orb].
  { now rewrite earlier_zero_l, earlier_zero_r. }
  destruct (startsWith (String c rest) "-").
  { now rewrite !earlier_zero_r. }
  rewrite !earlier_succ, IH.
  destruct (earlier (firstOccurrence rest "|")
              (earlier (firstOccurrence rest "==") (firstOccurrence rest "-")));
    reflexivity.
Qed.

Lemma truncateAtEarliest_cutAtAny (s : string) :
  Spec.truncateAtEarliest s = cutAtAny s.
Proof.
  unfold Spec.truncateAtEarliest.
  rewrite earliestInvalid_firstOccurrence, cutAtAny_earliest.
  destruct (earlier (firstOccurrence s "|")
              (earlier (firstOccurrence s "==") (firstOccurrence s "-")));
    cbn [option_map]; [apply slice_prefix|reflexivity].
Qed.

(** C6: the truncation step of the selector normaliser
    ([removeInvalidCharctersInSentence] with the tokens [|], [==], [-],
    applied one after the other in that order) gives, for every string, the
    string cut at the least of the first-occurrence positions of the three
    tokens, and left whole when none occurs; and the normaliser removes
    spaces and splits on [.] only after that cut. *)
Theorem truncation_is_earliest_cut :
  (forall searchSentence : string,
     Kubesec.removeInvalidCharctersInSentence searchSentence
       Kubesec.kubesecSelectorInvalidCharcters
     = Spec.truncateAtEarliest searchSentence)
  /\ (forall searchSentence : string,
        Kubesec.splitSelector searchSentence
        = split "."%char
            (removeAll " "%char
               (Spec.truncateAtEarliest (Kubesec.dropLeadingDot searchSentence)))).
Proof.
  assert (E : forall s,
             Kubesec.removeInvalidCharctersInSentence s
               Kubesec.kubesecSelectorInvalidCharcters
             = Spec.truncateAtEarliest s).
  { intros s.
    now rewrite removeInvalid_sequential, sequential_cuts,
      truncateAtEarliest_cutAtAny. }
  split; [exact E|].
  intros s. unfold Kubesec.splitSelector. now rewrite E.
Qed.

(* ----------------------------------------------------------------- *)
(** ** The selector normaliser *)

Lemma split_nonempty (sep : ascii) (s : string) :
  exists piece pieces, split sep s = piece :: pieces.
Proof.
  induction s as [|c rest [piece [pieces IH]]]; cbn [split]; [now eauto|].
  destruct (Ascii.eqb c sep); [now eauto|]. rewrite IH. eauto.
Qed.

Lemma arrange_ignores_document (d d' : option Document) (s : string) :
  Kubesec.arrangeKubesecSelectorBeforeSearch d s
  = Kubesec.arrangeKubesecSelectorBeforeSearch d' s.
Proof. reflexivity. Qed.

(** The normaliser never raises and never returns an empty array. *)
Lemma arrange_total (fileToSearchIn : option Document) (searchSentence : string) :
  exists first rest,
    Kubesec.arrangeKubesecSelectorBeforeSearch fileToSearchIn searchSentence
    = Normal (first :: rest).
Proof.
  unfold Kubesec.arrangeKubesecSelectorBeforeSearch, Kubesec.splitSelector.
  destruct (split_nonempty "."%char
              (removeAll " "%char
                 (Kubesec.removeInvalidCharctersInSentence
                    (Kubesec.dropLeadingDot searchSentence)
                    Kubesec.kubesecSelectorInvalidCharcters)))
    as [piece [pieces ->]].
  cbn [Kubesec.stripArrayMarker].
  destruct (includes piece "containers[]"); cbn [Kubesec.collapseMetadata];
    match goal with |- context [includes ?t "metadata"] =>
      destruct (includes t "metadata") end; eauto.
Qed.

(** C1 (as the code has it): normalising
    [.spec .containers[] .securityContext .runAsUser -gt 10000] gives the
    four segments [spec], [containers[]], [securityContext], [runAsUser]:
    the [-gt 10000] clause is cut off, and the array marker stays on
    [containers] because it is stripped from the first token only, as in
    [containers[] .securityContext .runAsUser -gt 10000], which gives
    [containers], [securityContext], [runAsUser]. *)
Theorem arrange_runAsUser (fileToSearchIn : option Document) :
  Kubesec.arrangeKubesecSelectorBeforeSearch fileToSearchIn
    ".spec .containers[] .securityContext .runAsUser -gt 10000"
  = Normal ["spec"; "containers[]"; "securityContext"; "runAsUser"]
  /\ Kubesec.arrangeKubesecSelectorBeforeSearch fileToSearchIn
       "containers[] .securityContext .runAsUser -gt 10000"
     = Normal ["containers"; "securityContext"; "runAsUser"].
Proof. split; reflexivity. Qed.

(** C1 as stated fails: the second segment is not the bare [containers]. *)
Lemma arrange_runAsUser_keeps_marker :
  Kubesec.arrangeKubesecSelectorBeforeSearch None
    ".spec .containers[] .securityContext .runAsUser -gt 10000"
  <> Normal ["spec"; "containers"; "securityContext"; "runAsUser"].
Proof. discriminate. Qed.

Lemma collapse_after_marker (fileToSearchIn : option Document)
    (searchSentence first : string) (rest : list string) :
  Kubesec.stripArrayMarker (Kubesec.splitSelector searchSentence)
  = Normal (first :: rest) ->
  includes first "metadata" = true ->
  Kubesec.arrangeKubesecSelectorBeforeSearch fileToSearchIn searchSentence
  = Normal ["metadata"].
Proof.
  intros Hsplit Hmeta.
  unfold Kubesec.arrangeKubesecSelectorBeforeSearch. rewrite Hsplit.
  cbn [Kubesec.collapseMetadata]. now rewrite Hmeta.
Qed.

(** The same when the test is made on the token before the array-marker
    step and that step does not apply. *)
Lemma collapse_without_marker (fileToSearchIn : option Document)
    (searchSentence first : string) (rest : list string) :
  Kubesec.splitSelector searchSentence = first :: rest ->
  includes first "containers[]" = false ->
  includes first "metadata" = true ->
  Kubesec.arrangeKubesecSelectorBeforeSearch fileToSearchIn searchSentence
  = Normal ["metadata"].
Proof.
  intros Hsplit Hno Hmeta.
  apply (collapse_after_marker fileToSearchIn searchSentence first rest);
    [|exact Hmeta].
  rewrite Hsplit. cbn [Kubesec.stripArrayMarker]. now rewrite Hno.
Qed.

(** C5: when the first token, as it stands after the array-marker step, is
    or contains [metadata], the normaliser returns the single segment
    [metadata]; so it does for [.metadata .labels .app]. *)
Theorem metadata_collapses (fileToSearchIn : option Document)
    (searchSentence first : string) (rest : list string) :
  Kubesec.stripArrayMarker (Kubesec.splitSelector searchSentence)
  = Normal (first :: rest) ->
  includes first "metadata" = true ->
  Kubesec.arrangeKubesecSelectorBeforeSearch fileToSearchIn searchSentence
  = Normal ["metadata"]
  /\ Kubesec.arrangeKubesecSelectorBeforeSearch fileToSearchIn
       ".metadata .labels .app"
     = Normal ["metadata"].
Proof.
  intros Hsplit Hmeta. split; [|reflexivity].
  now apply (collapse_after_marker fileToSearchIn searchSentence first rest).
Qed.

Lemma metadata_collapses_witness :
  Kubesec.arrangeKubesecSelectorBeforeSearch None ".metadata .name"
  = Normal ["metadata"]
  /\ Kubesec.arrangeKubesecSelectorBeforeSearch None ".metadata .labels .app"
     = Normal ["metadata"].
Proof.
  apply (metadata_collapses None ".metadata .name" "metadata" ["name"]);
    reflexivity.
Defined.

(** White space is none of the characters the normaliser looks for. *)
Lemma whitespace_differs (c p : ascii) :
  isWhiteSpace c = true -> isWhiteSpace p = false -> Ascii.eqb p c = false.
Proof.
  intros Hc Hp. destruct (Ascii.eqb_spec p c) as [->|]; congruence.
Qed.

Lemma startsWith_whitespace (c p : ascii) (rest pat : string) :
  isWhiteSpace c = true -> isWhiteSpace p = false ->
  startsWith (String c rest) (String p pat) = false.
Proof.
  intros Hc Hp. cbn [startsWith]. now rewrite (whitespace_differs c p).
Qed.

Lemma includes_whitespace (s : string) (p : ascii) (pat : string) :
  allChars isWhiteSpace s = true -> isWhiteSpace p = false ->
  includes s (String p pat) = false.
Proof.
  intros Hs Hp. induction s as [|c rest IH]; [reflexivity|].
  cbn [allChars] in Hs. apply andb_true_iff in Hs as [Hc Hrest].
  cbn [includes]. rewrite (startsWith_whitespace c p) by assumption.
  now apply IH.
Qed.

Lemma cutAtAny_whitespace (s : string) :
  allChars isWhiteSpace s = true -> cutAtAny s = s.
Proof.
  induction s as [|c rest IH]; [reflexivity|]. intros Hs.
  cbn [allChars] in Hs. apply andb_true_iff in Hs as [Hc Hrest].
  cbn [cutAtAny].
  rewrite !(startsWith_whitespace c) by (assumption || reflexivity).
  cbn [orb]. now rewrite IH.
Qed.

Lemma removeAll_whitespace (s : string) :
  allChars isWhiteSpace s = true ->
  allChars isWhiteSpace (removeAll " "%char s) = true.
Proof.
  induction s as [|c rest IH]; [reflexivity|]. intros Hs.
  cbn [allChars] in Hs. apply andb_true_iff in Hs as [Hc Hrest].
  cbn [removeAll]. destruct (Ascii.eqb c " "%char); [now apply IH|].
  cbn [allChars]. now rewrite Hc, IH.
Qed.

Lemma removeAll_spaces (s : string) :
  allChars (Ascii.eqb " "%char) s = true -> removeAll " "%char s = "".
Proof.
  induction s as [|c rest IH]; [reflexivity|]. intros Hs.
  cbn [allChars] in Hs. apply andb_true_iff in Hs as [Hc Hrest].
  cbn [removeAll]. rewrite Ascii.eqb_sym, Hc. now apply IH.
Qed.

Lemma spaces_are_whitespace (s : string) :
  allChars (Ascii.eqb " "%char) s = true -> allChars isWhiteSpace s = true.
Proof.
  induction s as [|c rest IH]; [reflexivity|]. intros Hs.
  cbn [allChars] in Hs. apply andb_true_iff in Hs as [Hc Hrest].
  apply Ascii.eqb_eq in Hc as <-. cbn [allChars]. now rewrite IH.
Qed.

Lemma split_whitespace (s : string) :
  allChars isWhiteSpace s = true -> split "."%char s = [s].
Proof.
  induction s as [|c rest IH]; [reflexivity|]. intros Hs.
  cbn [allChars] in Hs. apply andb_true_iff in Hs as [Hc Hrest].
  cbn [split]. rewrite Ascii.eqb_sym, (whitespace_differs c "."%char) by easy.
  now rewrite IH.
Qed.

Lemma dropLeadingDot_whitespace (s : string) :
  allChars isWhiteSpace s = true -> Kubesec.dropLeadingDot s = s.
Proof.
  destruct s as [|c rest]; [reflexivity|]. intros Hs.
  cbn [allChars] in Hs. apply andb_true_iff in Hs as [Hc Hrest].
  unfold Kubesec.dropLeadingDot. cbn [charAt0].
  now rewrite Ascii.eqb_sym, (whitespace_differs c "."%char).
Qed.

Lemma arrange_whitespace (fileToSearchIn : option Document) (s : string) :
  allChars isWhiteSpace s = true ->
  Kubesec.arrangeKubesecSelectorBeforeSearch fileToSearchIn s
  = Normal [removeAll " "%char s].
Proof.
  intros Hs.
  unfold Kubesec.arrangeKubesecSelectorBeforeSearch, Kubesec.splitSelector.
  rewrite dropLeadingDot_whitespace, removeInvalid_sequential, sequential_cuts,
    cutAtAny_whitespace by assumption.
  pose proof (removeAll_whitespace s Hs) as Hr.
  rewrite split_whitespace by assumption.
  cbn [Kubesec.stripArrayMarker].
  rewrite includes_whitespace by easy.
  cbn [Kubesec.collapseMetadata].
  now rewrite includes_whitespace by easy.
Qed.

(** C3 (as the code has it): for every string the normaliser completes
    without raising and returns at least one segment; for a selector that
    is empty or consists of white space only, it returns the single segment
    that is the selector without its space characters, which is the empty
    string when the selector is empty or made of spaces. *)
Theorem arrange_degenerate (fileToSearchIn : option Document)
    (searchSentence : string) :
  (exists first rest,
     Kubesec.arrangeKubesecSelectorBeforeSearch fileToSearchIn searchSentence
     = Normal (first :: rest))
  /\ (allChars isWhiteSpace searchSentence = true ->
      Kubesec.arrangeKubesecSelectorBeforeSearch fileToSearchIn searchSentence
      = Normal [removeAll " "%char searchSentence])
  /\ (allChars (Ascii.eqb " "%char) searchSentence = true ->
      Kubesec.arrangeKubesecSelectorBeforeSearch fileToSearchIn searchSentence
      = Normal [""]).
Proof.
  split; [apply arrange_total|]. split.
  - apply arrange_whitespace.
  - intros Hs. rewrite arrange_whitespace by now apply spaces_are_whitespace.
    now rewrite removeAll_spaces.
Qed.

Lemma arrange_degenerate_witness :
  Kubesec.arrangeKubesecSelectorBeforeSearch None (String tab "  ")
  = Normal [String tab ""]
  /\ Kubesec.arrangeKubesecSelectorBeforeSearch None "   " = Normal [""].
Proof.
  split.
  - apply (proj1 (proj2 (arrange_degenerate None (String tab "  ")))).
    reflexivity.
  - apply (proj2 (proj2 (arrange_degenerate None "   "))). reflexivity.
Defined.

(** C3 as stated fails: the empty selector gives one segment, not none. *)
Lemma arrange_empty_selector :
  Kubesec.arrangeKubesecSelectorBeforeSearch None "" = Normal [""]
  /\ Kubesec.arrangeKubesecSelectorBeforeSearch None "" <> Normal [].
Proof. split; [reflexivity|discriminate]. Qed.

(* ----------------------------------------------------------------- *)
(** ** The search sentence of a secret *)

Lemma firstToken_cons (c : ascii) (rest : string) :
  Whispers.firstToken (String c rest) =
  if Ascii.eqb c " "%char then "" else String c (Whispers.firstToken rest).
Proof.
  unfold Whispers.firstToken. cbn [split].
  destruct (Ascii.eqb c " "%char); [reflexivity|].
  destruct (split_nonempty " "%char rest) as [piece [pieces ->]]. reflexivity.
Qed.

Lemma firstToken_has_no_space (sec : string) :
  allChars (fun c => negb (Ascii.eqb c " "%char)) (Whispers.firstToken sec) = true.
Proof.
  induction sec as [|c rest IH]; [reflexivity|].
  rewrite firstToken_cons.
  destruct (Ascii.eqb c " "%char) eqn:E; [reflexivity|].
  cbn [allChars]. now rewrite E, IH.
Qed.

Lemma firstToken_is_prefix (sec : string) :
  sec = Whispers.firstToken sec
  \/ exists rest, sec = (Whispers.firstToken sec ++ String " "%char rest)%string.
Proof.
  induction sec as [|c rest IH]; [now left|].
  rewrite firstToken_cons.
  destruct (Ascii.eqb_spec c " "%char) as [->|_].
  - right. now exists rest.
  - destruct IH as [IH|[after IH]].
    + left. now rewrite <- IH.
    + right. exists after. cbn [append]. now rewrite <- IH.
Qed.

Lemma firstToken_upToWhiteSpace (sec : string) :
  allChars (fun c => (negb (isWhiteSpace c) || Ascii.eqb c " "%char)%bool) sec = true ->
  Whispers.firstToken sec = Spec.upToWhiteSpace sec.
Proof.
  induction sec as [|c rest IH]; [reflexivity|]. intros H.
  cbn [allChars] in H. apply andb_true_iff in H as [Hc Hrest].
  rewrite firstToken_cons. cbn [Spec.upToWhiteSpace].
  destruct (Ascii.eqb_spec c " "%char) as [->|Hne]; [reflexivity|].
  rewrite orb_false_r in Hc. apply negb_true_iff in Hc. rewrite Hc.
  now rewrite IH.
Qed.

Lemma trimStart_no_leading_space (sec : string) :
  allChars (fun c => (negb (isWhiteSpace c) || Ascii.eqb c " "%char)%bool) sec = true ->
  startsWith sec " " = false ->
  trimStart sec = sec.
Proof.
  destruct sec as [|c rest]; [reflexivity|]. intros H Hlead.
  cbn [allChars] in H. apply andb_true_iff in H as [Hc _].
  rewrite startsWith_one, Ascii.eqb_sym in Hlead.
  rewrite Hlead, orb_false_r in Hc. apply negb_true_iff in Hc.
  cbn [trimStart]. now rewrite Hc.
Qed.

(** C7 (as the code has it): the search sentence of a secret is the single
    segment [sec.split(' ')[0]]: the text of the fragment before its first
    space character (the whole fragment when it has none).  That is the
    first white-space-delimited token of the fragment when the fragment
    does not begin with a space and the space is the only white space in
    it.  For [AKIAEXAMPLE123 aws_access_key_id] the segment is
    [AKIAEXAMPLE123]. *)
Theorem secret_first_token (sec : string) :
  exists token,
    Whispers.secretSearchSentence sec = [token]
    /\ allChars (fun c => negb (Ascii.eqb c " "%char)) token = true
    /\ (sec = token \/ exists rest, sec = (token ++ String " "%char rest)%string)
    /\ (allChars (fun c => (negb (isWhiteSpace c) || Ascii.eqb c " "%char)%bool) sec
        = true ->
        startsWith sec " " = false ->
        token = Spec.firstWhitespaceToken sec)
    /\ Whispers.secretSearchSentence "AKIAEXAMPLE123 aws_access_key_id"
       = ["AKIAEXAMPLE123"].
Proof.
  exists (Whispers.firstToken sec). split; [reflexivity|].
  split; [apply firstToken_has_no_space|].
  split; [apply firstToken_is_prefix|].
  split; [|reflexivity].
  intros Hspaces Hlead. unfold Spec.firstWhitespaceToken.
  rewrite trimStart_no_leading_space by assumption.
  now apply firstToken_upToWhiteSpace.
Qed.

Lemma secret_first_token_witness :
  Whispers.secretSearchSentence "AKIAEXAMPLE123 aws_access_key_id"
  = [Spec.firstWhitespaceToken "AKIAEXAMPLE123 aws_access_key_id"].
Proof.
  destruct (secret_first_token "AKIAEXAMPLE123 aws_access_key_id")
    as [token [Hsentence [_ [_ [Htoken _]]]]].
  rewrite Hsentence. f_equal. apply Htoken; reflexivity.
Defined.

(** C7 as stated fails: the code splits on the space character only, so
    for a fragment whose first white space is a tab the segment runs on to
    the first space and is not the first white-space-delimited token. *)
Lemma secret_with_tab_keeps_it :
  Whispers.secretSearchSentence tabbedFragment = ["AKIA" ++ String tab "key"]%string
  /\ Spec.firstWhitespaceToken tabbedFragment = "AKIA"
  /\ Whispers.secretSearchSentence tabbedFragment
     <> [Spec.firstWhitespaceToken tabbedFragment].
Proof. split; [reflexivity|]. split; [reflexivity|]. discriminate. Qed.

(* ----------------------------------------------------------------- *)
(** ** Reading a file by lines *)

Lemma join_more (sep : ascii) (piece next : string) (pieces : list string) :
  join sep (piece :: next :: pieces)
  = (piece ++ String sep (join sep (next :: pieces)))%string.
Proof. reflexivity. Qed.

Lemma join_first (sep c : ascii) (piece : string) (pieces : list string) :
  join sep (String c piece :: pieces) = String c (join sep (piece :: pieces)).
Proof. destruct pieces; reflexivity. Qed.

Lemma join_split (sep : ascii) (s : string) : join sep (split sep s) = s.
Proof.
  induction s as [|c rest IH]; [reflexivity|].
  cbn [split]. destruct (split_nonempty sep rest) as [piece [pieces E]].
  rewrite E in *.
  destruct (Ascii.eqb_spec c sep) as [->|_].
  - rewrite join_more, IH. reflexivity.
  - rewrite join_first, IH. reflexivity.
Qed.

Lemma split_trailing_separator (sep : ascii) (s : string) :
  split sep (s ++ String sep "") = split sep s ++ [""].
Proof.
  induction s as [|c rest IH].
  - cbn. now rewrite Ascii.eqb_refl.
  - cbn [append split]. rewrite IH.
    destruct (Ascii.eqb c sep); [reflexivity|].
    destruct (split_nonempty sep rest) as [piece [pieces ->]]. reflexivity.
Qed.

Lemma dropTrailingEmptyLine_last (lines : list string) :
  Spec.dropTrailingEmptyLine (lines ++ [""]) = lines.
Proof.
  induction lines as [|line more IH]; [reflexivity|].
  cbn [app Spec.dropTrailingEmptyLine].
  destruct (more ++ [""]) as [|next after] eqn:E.
  - now destruct more.
  - now rewrite IH.
Qed.

Lemma readFileByLines_same (fs : FileSystem) (path : string) :
  outcome (Kubesec.readFileByLines fs path)
  = outcome (GateFunctions.readFileByLines fs path).
Proof.
  unfold Kubesec.readFileByLines, GateFunctions.readFileByLines.
  destruct (fs path); reflexivity.
Qed.

(** C8 (as the code has it): when the file can be read, both copies of
    [readFileByLines] return the lines of the content after [trim()] has
    removed all white space, blank lines included, from both of its ends,
    and show nothing.  Joining these lines with newlines gives the trimmed
    content back, so the lines in between keep their white space.  They are
    the content split on newlines without its trailing empty line when the
    content is its trimmed text followed by one newline. *)
Theorem readFileByLines_trims (fs : FileSystem) (path content : string) :
  fs path = Some content ->
  GateFunctions.readFileByLines fs path
  = (Normal (Some (split newline (trim content))), [])
  /\ Kubesec.readFileByLines fs path
     = (Normal (Some (split newline (trim content))), [])
  /\ join newline (split newline (trim content)) = trim content
  /\ (content = (trim content ++ lineBreak)%string ->
      split newline (trim content) = Spec.documentOf content).
Proof.
  intros Hread.
  unfold GateFunctions.readFileByLines, Kubesec.readFileByLines.
  rewrite Hread. repeat split.
  - apply join_split.
  - intros Hshape. unfold Spec.documentOf. rewrite Hshape at 2.
    unfold lineBreak.
    now rewrite split_trailing_separator, dropTrailingEmptyLine_last.
Qed.

Lemma readFileByLines_trims_witness :
  GateFunctions.readFileByLines (everyFile paddedContent) "pod.yaml"
  = (Normal (Some ["key: value"]), []).
Proof.
  apply (readFileByLines_trims (everyFile paddedContent) "pod.yaml" paddedContent).
  reflexivity.
Defined.

(** C8 as stated fails: of a content that begins with a blank line and an
    indented line and ends with two newlines, the code keeps one line
    without its indentation, where the content split on newlines without
    one trailing empty line has three lines. *)
Lemma readFileByLines_drops_leading_lines :
  outcome (GateFunctions.readFileByLines (everyFile paddedContent) "pod.yaml")
  = Normal (Some ["key: value"])
  /\ outcome (Kubesec.readFileByLines (everyFile paddedContent) "pod.yaml")
     = Normal (Some ["key: value"])
  /\ Spec.documentOf paddedContent = [""; "  key: value"; ""]
  /\ ["key: value"] <> Spec.documentOf paddedContent.
Proof. repeat split. discriminate. Qed.

(* ----------------------------------------------------------------- *)
(** ** Logs *)

Lemma events_bind {A B} (a : A) (log : list Event) (k : A -> Run B) :
  events (bind (Normal a, log) k) = log ++ events (k a).
Proof. unfold bind, events. now destruct (k a). Qed.

Lemma outcome_bind {A B} (a : A) (log : list Event) (k : A -> Run B) :
  outcome (bind (Normal a, log) k) = outcome (k a).
Proof. unfold bind, outcome. now destruct (k a). Qed.

Lemma searches_app (log log' : list Event) :
  searches (log ++ log') = searches log ++ searches log'.
Proof.
  induction log as [|e log IH]; [reflexivity|].
  destruct e; cbn [app searches]; now rewrite IH.
Qed.

Lemma kubesec_read_outcome (fs : FileSystem) (path : string) :
  outcome (Kubesec.readFileByLines fs path)
  = Normal (option_map (fun content => split newline (trim content)) (fs path)).
Proof. unfold Kubesec.readFileByLines. now destruct (fs path). Qed.

Lemma kubesec_read_searches (fs : FileSystem) (path : string) :
  searches (events (Kubesec.readFileByLines fs path)) = [].
Proof. unfold Kubesec.readFileByLines. now destruct (fs path). Qed.

Lemma gate_read_searches (fs : FileSystem) (path : string) :
  searches (events (GateFunctions.readFileByLines fs path)) = [].
Proof. unfold GateFunctions.readFileByLines. now destruct (fs path). Qed.

Lemma showSearchResult_searches (searchSentence : string)
    (textDocument : Kubesec.TextDocument) (searchResult : option SearchResult) :
  searches (events (Kubesec.showSearchResult searchSentence textDocument searchResult))
  = [].
Proof.
  destruct searchResult as [r|]; [|reflexivity].
  unfold Kubesec.showSearchResult. now destruct (requestedLine r =? -1).
Qed.

(** What one kubesec finding adds to the log once the file is read. *)
Lemma resolveFinding_events (hierarchySearchInFile : Locator)
    (textDocument : Kubesec.TextDocument) (res : Kubesec.Finding)
    (documentText : option Document) (segments : list string) :
  Kubesec.arrangeKubesecSelectorBeforeSearch documentText (Kubesec.selector res)
  = Normal segments ->
  events (Kubesec.resolveFinding hierarchySearchInFile textDocument res documentText)
  = Searched documentText segments
    :: events (Kubesec.showSearchResult (Kubesec.selector res) textDocument
                 (hierarchySearchInFile documentText segments)).
Proof.
  intros Harrange. unfold Kubesec.resolveFinding, lift. rewrite Harrange.
  rewrite events_bind. unfold emit. now rewrite events_bind.
Qed.

(** The log of the kubesec caller: the reads of all findings, then the
    findings one after the other, each on the lines that were read. *)
Lemma kubesec_log (fs : FileSystem) (hierarchySearchInFile : Locator)
    (kubesecResult : list Kubesec.Finding) (textDocument : Kubesec.TextDocument)
    (documentText : option Document) :
  outcome (Kubesec.readFileByLines fs (Kubesec.fileName textDocument))
  = Normal documentText ->
  Kubesec.showTextDocumentWithErrorsKubesec fs hierarchySearchInFile
    kubesecResult textDocument
  = flat_map
      (fun _ => events (Kubesec.readFileByLines fs (Kubesec.fileName textDocument)))
      kubesecResult
    ++ flat_map
         (fun res =>
            events (Kubesec.resolveFinding hierarchySearchInFile textDocument
                      res documentText))
         kubesecResult.
Proof.
  intros Hread. unfold Kubesec.showTextDocumentWithErrorsKubesec. f_equal.
  - induction kubesecResult as [|res later IH]; [reflexivity|].
    cbn [map flat_map]. now rewrite IH.
  - induction kubesecResult as [|res later IH]; [reflexivity|].
    cbn [map combine flat_map fst snd]. now rewrite Hread, IH.
Qed.

Lemma kubesec_searches (fs : FileSystem) (hierarchySearchInFile : Locator)
    (kubesecResult : list Kubesec.Finding) (textDocument : Kubesec.TextDocument)
    (documentText : option Document) :
  outcome (Kubesec.readFileByLines fs (Kubesec.fileName textDocument))
  = Normal documentText ->
  Forall2
    (fun res call =>
       fst call = documentText
       /\ Kubesec.arrangeKubesecSelectorBeforeSearch documentText
            (Kubesec.selector res) = Normal (snd call))
    kubesecResult
    (searches
       (Kubesec.showTextDocumentWithErrorsKubesec fs hierarchySearchInFile
          kubesecResult textDocument)).
Proof.
  intros Hread. rewrite (kubesec_log _ _ _ _ _ Hread), searches_app.
  replace (searches
             (flat_map
                (fun _ : Kubesec.Finding =>
                   events (Kubesec.readFileByLines fs (Kubesec.fileName textDocument)))
                kubesecResult)) with (@nil (option Document * list string)).
  2:{ induction kubesecResult as [|res later IH]; [reflexivity|].
      cbn [flat_map]. now rewrite searches_app, kubesec_read_searches. }
  cbn [app].
  induction kubesecResult as [|res later IH]; [constructor|].
  cbn [flat_map]. rewrite searches_app.
  destruct (arrange_total documentText (Kubesec.selector res)) as [first [rest E]].
  rewrite (resolveFinding_events _ _ _ _ _ E).
  cbn [searches]. rewrite showSearchResult_searches. cbn [app].
  constructor; [now split|exact IH].
Qed.

(** The searches of the loop over the secrets of one file are threaded. *)
Lemma forEachSecret_threaded (hierarchySearchInFile : Locator)
    (secrets : list string) (documentText : option Document) :
  threaded hierarchySearchInFile documentText
    (searches (events (Whispers.forEachSecret hierarchySearchInFile
                         documentText secrets))).
Proof.
  revert documentText.
  induction secrets as [|sec later IH]; intros documentText; [exact I|].
  cbn [Whispers.forEachSecret]. unfold emit. rewrite events_bind.
  cbn [app searches threaded]. split; [reflexivity|].
  destruct (hierarchySearchInFile documentText (Whispers.secretSearchSentence sec))
    as [searchResults|]; [|reflexivity].
  specialize (IH (Some (fileToSearchIn searchResults))).
  destruct (Whispers.forEachSecret hierarchySearchInFile
              (Some (fileToSearchIn searchResults)) later) as [[messages|] log];
    cbn [bind ret events snd] in *; now rewrite ?app_nil_r.
Qed.

Lemma scanSecretsOfFile_events (fs : FileSystem) (hierarchySearchInFile : Locator)
    (filePath sec : string) (later : list string) (documentText : option Document) :
  outcome (GateFunctions.readFileByLines fs filePath) = Normal documentText ->
  events (Whispers.scanSecretsOfFile fs hierarchySearchInFile filePath (sec :: later))
  = events (GateFunctions.readFileByLines fs filePath)
    ++ events (Whispers.forEachSecret hierarchySearchInFile documentText
                 (sec :: later)).
Proof.
  intros Hread. unfold Whispers.scanSecretsOfFile.
  destruct (GateFunctions.readFileByLines fs filePath) as [read log].
  cbn [outcome fst] in Hread. subst read. now rewrite events_bind.
Qed.

(* ----------------------------------------------------------------- *)
(** ** The callers *)

(** C4: a search result consumed by [showTextDocumentWithErrorsKubesec].
    When its [requestedLine] is [-1], the caller shows the message made of
    the selector followed by [ not found!] and neither highlights nor
    jumps; otherwise it highlights the line from the column [numOfTabs],
    jumps to the line, and shows no message. *)
Theorem kubesec_result_consumed (hierarchySearchInFile : Locator)
    (textDocument : Kubesec.TextDocument) (res : Kubesec.Finding)
    (documentText : option Document) (segments : list string)
    (searchResult : SearchResult) :
  Kubesec.arrangeKubesecSelectorBeforeSearch documentText (Kubesec.selector res)
  = Normal segments ->
  hierarchySearchInFile documentText segments = Some searchResult ->
  (requestedLine searchResult = -1 ->
   events (Kubesec.resolveFinding hierarchySearchInFile textDocument res documentText)
   = [Searched documentText segments;
      ShowInformationMessage (Kubesec.selector res ++ " not found!")])
  /\ (requestedLine searchResult <> -1 ->
      events (Kubesec.resolveFinding hierarchySearchInFile textDocument res documentText)
      = [Searched documentText segments;
         HighLightTextInFile (requestedLine searchResult) (numOfTabs searchResult);
         JumpSpecifiedLine (requestedLine searchResult)
           (Kubesec.uriPath textDocument)]).
Proof.
  intros Harrange Hsearch.
  rewrite (resolveFinding_events _ _ _ _ _ Harrange), Hsearch.
  unfold Kubesec.showSearchResult.
  split; intros Hline.
  - rewrite Hline. reflexivity.
  - apply Z.eqb_neq in Hline. rewrite Hline. reflexivity.
Qed.

Lemma kubesec_result_consumed_witness :
  events (Kubesec.resolveFinding Search.locator manifest
            {| Kubesec.selector := ".spec .volumes" |} (Some scenario))
  = [Searched (Some scenario) ["spec"; "volumes"];
     ShowInformationMessage ".spec .volumes not found!"]
  /\ events (Kubesec.resolveFinding Search.locator manifest
               {| Kubesec.selector := ".spec .containers" |} (Some scenario))
     = [Searched (Some scenario) ["spec"; "containers"];
        HighLightTextInFile 1 1; JumpSpecifiedLine 1 "/pod.yaml"].
Proof.
  split.
  - apply (proj1 (kubesec_result_consumed Search.locator manifest
                    {| Kubesec.selector := ".spec .volumes" |} (Some scenario)
                    ["spec"; "volumes"]
                    (Search.hierarchySearchInFile scenario ["spec"; "volumes"])
                    eq_refl eq_refl)).
    reflexivity.
  - apply (proj2 (kubesec_result_consumed Search.locator manifest
                    {| Kubesec.selector := ".spec .containers" |} (Some scenario)
                    ["spec"; "containers"]
                    (Search.hierarchySearchInFile scenario ["spec"; "containers"])
                    eq_refl eq_refl)).
    discriminate.
Defined.

(** C9 (as the code has it): in [scanData] the secrets of a file are
    searched one after the other, the first in the lines that were read and
    each later one in the buffer returned by the search before it; in
    [showTextDocumentWithErrorsKubesec] there is one search per finding and
    each is made in the lines of the file as read for that finding, the
    buffer returned by the search before it being dropped. *)
Theorem resolution_buffers (fs : FileSystem) (hierarchySearchInFile : Locator)
    (filePath : string) (secrets : list string)
    (kubesecResult : list Kubesec.Finding) (textDocument : Kubesec.TextDocument)
    (secretsText manifestText : option Document) :
  outcome (GateFunctions.readFileByLines fs filePath) = Normal secretsText ->
  outcome (Kubesec.readFileByLines fs (Kubesec.fileName textDocument))
  = Normal manifestText ->
  threaded hierarchySearchInFile secretsText
    (searches (events (Whispers.scanSecretsOfFile fs hierarchySearchInFile
                         filePath secrets)))
  /\ Forall2
       (fun res call =>
          fst call = manifestText
          /\ Kubesec.arrangeKubesecSelectorBeforeSearch manifestText
               (Kubesec.selector res) = Normal (snd call))
       kubesecResult
       (searches
          (Kubesec.showTextDocumentWithErrorsKubesec fs hierarchySearchInFile
             kubesecResult textDocument)).
Proof.
  intros Hsecrets Hmanifest. split; [|now apply kubesec_searches].
  destruct secrets as [|sec later]; [exact I|].
  rewrite (scanSecretsOfFile_events _ _ _ _ _ _ Hsecrets), searches_app,
    gate_read_searches.
  apply forEachSecret_threaded.
Qed.

Lemma resolution_buffers_witness :
  threaded Search.locator (Some duplicatedDocument)
    (searches (events (Whispers.scanSecretsOfFile (everyFile duplicatedContent)
                         Search.locator "pod.yaml" ["spec"; "spec"])))
  /\ Forall2
       (fun res call =>
          fst call = Some duplicatedDocument
          /\ Kubesec.arrangeKubesecSelectorBeforeSearch (Some duplicatedDocument)
               (Kubesec.selector res) = Normal (snd call))
       [{| Kubesec.selector := ".spec .hostPID" |};
        {| Kubesec.selector := ".spec .hostPID" |}]
       (searches
          (Kubesec.showTextDocumentWithErrorsKubesec (everyFile duplicatedContent)
             Search.locator
             [{| Kubesec.selector := ".spec .hostPID" |};
              {| Kubesec.selector := ".spec .hostPID" |}] manifest)).
Proof.
  apply (resolution_buffers (everyFile duplicatedContent) Search.locator
           "pod.yaml" ["spec"; "spec"]
           [{| Kubesec.selector := ".spec .hostPID" |};
            {| Kubesec.selector := ".spec .hostPID" |}] manifest
           (Some duplicatedDocument) (Some duplicatedDocument));
    reflexivity.
Defined.

(** C9 as stated fails for the kubesec caller: of two findings with the
    same selector the second is searched in the whole file again, not in
    the buffer that the first search returned, and is shown on the same
    line. *)
Lemma kubesec_searches_whole_file_again :
  Kubesec.showTextDocumentWithErrorsKubesec (everyFile duplicatedContent)
    Search.locator
    [{| Kubesec.selector := ".spec .hostPID" |};
     {| Kubesec.selector := ".spec .hostPID" |}] manifest
  = [Searched (Some duplicatedDocument) ["spec"; "hostPID"];
     HighLightTextInFile 1 1; JumpSpecifiedLine 1 "/pod.yaml";
     Searched (Some duplicatedDocument) ["spec"; "hostPID"];
     HighLightTextInFile 1 1; JumpSpecifiedLine 1 "/pod.yaml"]
  /\ fileToSearchIn (Search.hierarchySearchInFile duplicatedDocument ["spec"; "hostPID"])
     = [""; ""; "other:"; "spec:"; "  hostPID: true"]
  /\ ~ threaded Search.locator (Some duplicatedDocument)
         (searches
            (Kubesec.showTextDocumentWithErrorsKubesec
               (everyFile duplicatedContent) Search.locator
               [{| Kubesec.selector := ".spec .hostPID" |};
                {| Kubesec.selector := ".spec .hostPID" |}] manifest)).
Proof.
  split; [vm_compute; reflexivity|]. split; [vm_compute; reflexivity|].
  intros H. vm_compute in H. destruct H as [_ [H _]]. discriminate H.
Qed.

Lemma Forall2_right {A B} (P : A -> B -> Prop) (Q : B -> Prop)
    (l : list A) (l' : list B) :
  (forall a b, P a b -> Q b) -> Forall2 P l l' -> Forall Q l'.
Proof. intros HPQ H. induction H; constructor; eauto. Qed.

(** C10: when the file cannot be read, [readFileByLines] shows
    [There is no such file!] and returns [undefined], neither lines nor an
    empty array; [scanData] and [showTextDocumentWithErrorsKubesec] pass
    that value on, so every search they make receives [undefined] as its
    document. *)
Theorem read_failure_gives_undefined (fs : FileSystem)
    (hierarchySearchInFile : Locator) (filePath sec : string)
    (later : list string) (kubesecResult : list Kubesec.Finding)
    (textDocument : Kubesec.TextDocument) :
  fs filePath = None ->
  Kubesec.fileName textDocument = filePath ->
  GateFunctions.readFileByLines fs filePath
  = (Normal None, [ShowErrorMessage "There is no such file!"])
  /\ Kubesec.readFileByLines fs filePath
     = (Normal None, [ShowInformationMessage "There is no such file!"])
  /\ (exists more,
        events (Whispers.scanSecretsOfFile fs hierarchySearchInFile filePath
                  (sec :: later))
        = ShowErrorMessage "There is no such file!"
          :: Searched None (Whispers.secretSearchSentence sec) :: more)
  /\ Forall (fun call => fst call = None)
       (searches (Kubesec.showTextDocumentWithErrorsKubesec fs
                    hierarchySearchInFile kubesecResult textDocument))
  /\ List.length (searches (Kubesec.showTextDocumentWithErrorsKubesec fs
                              hierarchySearchInFile kubesecResult textDocument))
     = List.length kubesecResult.
Proof.
  intros Hfail Hname.
  assert (Hgate : GateFunctions.readFileByLines fs filePath
                  = (Normal None, [ShowErrorMessage "There is no such file!"])).
  { unfold GateFunctions.readFileByLines. now rewrite Hfail. }
  assert (Hkube : Kubesec.readFileByLines fs filePath
                  = (Normal None, [ShowInformationMessage "There is no such file!"])).
  { unfold Kubesec.readFileByLines. now rewrite Hfail. }
  split; [exact Hgate|]. split; [exact Hkube|]. split.
  - rewrite (scanSecretsOfFile_events _ _ _ _ _ None) by now rewrite Hgate.
    rewrite Hgate. cbn [events snd app Whispers.forEachSecret].
    unfold emit. rewrite events_bind. cbn [app]. eauto.
  - assert (Hread : outcome (Kubesec.readFileByLines fs (Kubesec.fileName textDocument))
                    = Normal None) by now rewrite Hname, Hkube.
    pose proof (kubesec_searches fs hierarchySearchInFile kubesecResult
                  textDocument None Hread) as Hcalls.
    split.
    + eapply Forall2_right; [|exact Hcalls]. now intros res call [Hdoc _].
    + symmetry. eapply Forall2_length. exact Hcalls.
Qed.

Lemma read_failure_gives_undefined_witness :
  GateFunctions.readFileByLines noFile "pod.yaml"
  = (Normal None, [ShowErrorMessage "There is no such file!"])
  /\ events (Whispers.scanSecretsOfFile noFile Search.locator "pod.yaml"
               ["AKIAEXAMPLE123 aws_access_key_id"])
     = [ShowErrorMessage "There is no such file!";
        Searched None ["AKIAEXAMPLE123"]].
Proof.
  destruct (read_failure_gives_undefined noFile Search.locator "pod.yaml"
              "AKIAEXAMPLE123 aws_access_key_id" []
              [{| Kubesec.selector := ".spec .hostPID" |}]
              {| Kubesec.fileName := "pod.yaml"; Kubesec.uriPath := "/pod.yaml" |}
              eq_refl eq_refl) as [Hread _].
  split; [exact Hread|reflexivity].
Defined.

(* ----------------------------------------------------------------- *)
(** ** The hierarchy locator *)











(** A buffer that were only the lines after the match could not give the
    lines of the original document: two documents that differ only before
    the first match would leave the same buffer, so no locator could return
    the document line of the second match in both.  This is why the buffer
    keeps the place of the lines it removes. *)
Lemma buffer_forgets_document_lines
    (search : Document -> list string -> SearchResult) :
  fileToSearchIn (search ["key: a"; "other: b"; "key: c"] ["key"])
  = ["other: b"; "key: c"] ->
  fileToSearchIn (search ["first: z"; "key: a"; "other: b"; "key: c"] ["key"])
  = ["other: b"; "key: c"] ->
  ~ (requestedLine
       (search (fileToSearchIn (search ["key: a"; "other: b"; "key: c"] ["key"]))
          ["key"]) = 2
     /\ requestedLine
          (search
             (fileToSearchIn
                (search ["first: z"; "key: a"; "other: b"; "key: c"] ["key"]))
             ["key"]) = 3).
Proof.
  intros -> ->. intros [Htwo Hthree]. rewrite Htwo in Hthree. discriminate.
Qed.

(* ================================================================= *)
(** * Further properties of the code *)

(* ----------------------------------------------------------------- *)
(** ** Truncation with any list of tokens *)

Lemma removeInvalid_cuts (tokens : list string) (s : string) :
  Kubesec.removeInvalidCharctersInSentence s tokens
  = fold_left (fun sentence ch => cutAt ch sentence) tokens s.
Proof.
  unfold Kubesec.removeInvalidCharctersInSentence.
  revert s; induction tokens as [|ch tokens IH]; intros s; [reflexivity|].
  cbn [fold_left]. rewrite <- IH. f_equal. apply truncation_round.
Qed.

Lemma cutAt_is_prefix (pat s : string) :
  exists rest, s = (cutAt pat s ++ rest)%string.
Proof.
  induction s as [|c s [rest IH]]; cbn [cutAt].
  - destruct (startsWith "" pat); now exists "".
  - destruct (startsWith (String c s) pat).
    + now exists (String c s).
    + exists rest. cbn [append]. now rewrite <- IH.
Qed.

Lemma startsWith_append (p rest pat : string) :
  startsWith p pat = true -> startsWith (p ++ rest) pat = true.
Proof.
  revert pat; induction p as [|c p IH]; intros [|x pat] H;
    try apply startsWith_empty; try discriminate.
  cbn [append startsWith] in *.
  apply andb_true_iff in H as [Hx Hp]. now rewrite Hx, IH.
Qed.

Lemma includes_append (p rest pat : string) :
  includes p pat = true -> includes (p ++ rest) pat = true.
Proof.
  induction p as [|c p IH]; cbn [includes append]; intros H.
  - destruct pat as [|x pat]; [|discriminate].
    destruct rest; reflexivity.
  - destruct (startsWith (String c p) pat) eqn:E.
    + change (String c (p ++ rest)) with (String c p ++ rest)%string.
      now rewrite startsWith_append.
    + rewrite IH by assumption.
      now destruct (startsWith (String c (p ++ rest)) pat).
Qed.

Lemma includes_cutAt (pat s : string) :
  pat <> "" -> includes (cutAt pat s) pat = false.
Proof.
  intros Hpat. destruct pat as [|x pat]; [congruence|]. clear Hpat.
  induction s as [|c s IH]; [reflexivity|].
  cbn [cutAt]. destruct (startsWith (String c s) (String x pat)) eqn:E;
    [reflexivity|].
  cbn [includes]. rewrite IH.
  destruct (startsWith (String c (cutAt (String x pat) s)) (String x pat)) eqn:F;
    [|reflexivity].
  destruct (cutAt_is_prefix (String x pat) s) as [rest Hrest].
  apply (startsWith_append _ rest) in F. cbn [append] in F.
  rewrite <- Hrest in F. congruence.
Qed.

Lemma string_append_empty (s : string) : (s ++ "")%string = s.
Proof. induction s as [|c s IH]; cbn [append]; [reflexivity|now rewrite IH]. Qed.

Lemma string_append_assoc (a b c : string) :
  ((a ++ b) ++ c)%string = (a ++ (b ++ c))%string.
Proof. induction a as [|x a IH]; cbn [append]; [reflexivity|now rewrite IH]. Qed.

Lemma cuts_keep_a_prefix (tokens : list string) (s : string) :
  Forall (fun ch => ch <> "") tokens ->
  (exists rest,
     s = (fold_left (fun sentence ch => cutAt ch sentence) tokens s ++ rest)%string)
  /\ Forall
       (fun ch =>
          includes (fold_left (fun sentence ch => cutAt ch sentence) tokens s) ch
          = false)
       tokens.
Proof.
  intros Hne. revert s.
  induction Hne as [|ch tokens Hch Hne IH]; intros s; cbn [fold_left].
  - split; [exists ""; now rewrite string_append_empty|constructor].
  - destruct (IH (cutAt ch s)) as [[rest Hrest] Hnone].
    destruct (cutAt_is_prefix ch s) as [rest' Hrest'].
    split.
    + exists (rest ++ rest')%string.
      rewrite <- string_append_assoc, <- Hrest. exact Hrest'.
    + constructor; [|exact Hnone].
      destruct (includes (fold_left (fun sentence ch0 => cutAt ch0 sentence)
                            tokens (cutAt ch s)) ch) eqn:E; [|reflexivity].
      apply (includes_append _ rest) in E. rewrite <- Hrest in E.
      now rewrite includes_cutAt in E.
Qed.

(** X1: [removeInvalidCharctersInSentence], for any list of non-empty
    tokens, returns a prefix of the sentence, and none of the tokens
    occurs in what it returns. *)
Theorem removeInvalid_prefix_without_tokens (searchSentence : string)
    (invalidCharcters : list string) :
  Forall (fun ch => ch <> "") invalidCharcters ->
  (exists removed,
     searchSentence
     = (Kubesec.removeInvalidCharctersInSentence searchSentence invalidCharcters
        ++ removed)%string)
  /\ Forall
       (fun ch =>
          includes
            (Kubesec.removeInvalidCharctersInSentence searchSentence
               invalidCharcters) ch = false)
       invalidCharcters.
Proof.
  intros Hne. rewrite removeInvalid_cuts. now apply cuts_keep_a_prefix.
Qed.

Lemma removeInvalid_prefix_without_tokens_witness :
  (exists removed,
     "containers[] .securityContext .readOnlyRootFilesystem == true"
     = (Kubesec.removeInvalidCharctersInSentence
          "containers[] .securityContext .readOnlyRootFilesystem == true"
          Kubesec.kubesecSelectorInvalidCharcters ++ removed)%string)
  /\ Forall
       (fun ch =>
          includes
            (Kubesec.removeInvalidCharctersInSentence
               "containers[] .securityContext .readOnlyRootFilesystem == true"
               Kubesec.kubesecSelectorInvalidCharcters) ch = false)
       Kubesec.kubesecSelectorInvalidCharcters.
Proof.
  apply (removeInvalid_prefix_without_tokens
           "containers[] .securityContext .readOnlyRootFilesystem == true"
           Kubesec.kubesecSelectorInvalidCharcters).
  repeat constructor; discriminate.
Defined.

(* ----------------------------------------------------------------- *)
(** ** What a normalised selector is made of *)

Lemma allChars_weaken (P Q : ascii -> bool) (s : string) :
  (forall c, P c = true -> Q c = true) ->
  allChars P s = true -> allChars Q s = true.
Proof.
  intros HPQ. induction s as [|c s IH]; [reflexivity|].
  cbn [allChars]. intros H. apply andb_true_iff in H as [Hc Hs].
  now rewrite (HPQ c Hc), IH.
Qed.

Lemma allChars_cutAtAny (s : string) :
  allChars (fun c => (negb (Ascii.eqb c "|"%char) && negb (Ascii.eqb c "-"%char))%bool)
    (cutAtAny s) = true.
Proof.
  induction s as [|c s IH]; [reflexivity|].
  cbn [cutAtAny]. rewrite !startsWith_one.
  destruct (Ascii.eqb "|"%char c) eqn:Ebar; [reflexivity|].
  cbn [orb].
  destruct (startsWith (String c s) "=="); [reflexivity|].
  cbn [orb].
  destruct (Ascii.eqb "-"%char c) eqn:Edash; [reflexivity|].
  cbn [allChars].
  now rewrite (Ascii.eqb_sym c "|"%char), (Ascii.eqb_sym c "-"%char), Ebar, Edash, IH.
Qed.

Lemma allChars_removeAll (P : ascii -> bool) (x : ascii) (s : string) :
  allChars P s = true ->
  allChars (fun c => (P c && negb (Ascii.eqb c x))%bool) (removeAll x s) = true.
Proof.
  induction s as [|c s IH]; [reflexivity|].
  cbn [allChars removeAll]. intros H. apply andb_true_iff in H as [Hc Hs].
  destruct (Ascii.eqb c x) eqn:E; [now apply IH|].
  cbn [allChars]. now rewrite Hc, E, IH.
Qed.

Lemma allChars_split (P : ascii -> bool) (sep : ascii) (s : string) :
  allChars P s = true ->
  Forall
    (fun piece =>
       allChars (fun c => (P c && negb (Ascii.eqb c sep))%bool) piece = true)
    (split sep s).
Proof.
  induction s as [|c s IH]; [repeat constructor|].
  cbn [allChars split]. intros H. apply andb_true_iff in H as [Hc Hs].
  specialize (IH Hs).
  destruct (Ascii.eqb c sep) eqn:E; [now constructor|].
  destruct (split sep s) as [|piece pieces]; [repeat constructor; cbn; now rewrite Hc, E|].
  inversion IH as [|? ? Hpiece Hpieces]; subst.
  constructor; [|assumption].
  cbn [allChars]. now rewrite Hc, E, Hpiece.
Qed.

Lemma allChars_trimStart (P : ascii -> bool) (s : string) :
  allChars P s = true -> allChars P (trimStart s) = true.
Proof.
  induction s as [|c s IH]; [reflexivity|].
  intros H. cbn [trimStart]. destruct (isWhiteSpace c); [|exact H].
  cbn [allChars] in H. apply andb_true_iff in H as [_ Hs]. now apply IH.
Qed.

Lemma allChars_trimEnd (P : ascii -> bool) (s : string) :
  allChars P s = true -> allChars P (trimEnd s) = true.
Proof.
  induction s as [|c s IH]; [reflexivity|].
  cbn [allChars trimEnd]. intros H. apply andb_true_iff in H as [Hc Hs].
  specialize (IH Hs).
  destruct (trimEnd s) as [|d kept].
  - destruct (isWhiteSpace c); [reflexivity|]. cbn [allChars]. now rewrite Hc.
  - cbn [allChars] in *. now rewrite Hc, IH.
Qed.

Lemma allChars_substring (P : ascii -> bool) (n m : nat) (s : string) :
  allChars P s = true -> allChars P (substring n m s) = true.
Proof.
  revert n m; induction s as [|c s IH]; intros n m H.
  - now destruct n, m.
  - cbn [allChars] in H. apply andb_true_iff in H as [Hc Hs].
    destruct n as [|n]; [destruct m as [|m]|]; cbn [substring]; [reflexivity| |].
    + cbn [allChars]. now rewrite Hc, IH.
    + now apply IH.
Qed.

Lemma allChars_slice (P : ascii -> bool) (s : string) (b e : Z) :
  allChars P s = true -> allChars P (slice s b e) = true.
Proof. intros H. unfold slice. now apply allChars_substring. Qed.

Lemma splitSelector_plain (searchSentence : string) :
  Forall (fun segment => allChars plainChar segment = true)
    (Kubesec.splitSelector searchSentence).
Proof.
  unfold Kubesec.splitSelector.
  rewrite removeInvalid_sequential, sequential_cuts.
  eapply Forall_impl;
    [|apply allChars_split, allChars_removeAll, allChars_cutAtAny].
  intros segment. apply allChars_weaken. intros c. unfold plainChar, separatorChar.
  destruct (Ascii.eqb c "|"%char), (Ascii.eqb c "-"%char),
    (Ascii.eqb c " "%char), (Ascii.eqb c "."%char); intros H;
    try discriminate H; reflexivity.
Qed.

(** X2: no segment that [arrangeKubesecSelectorBeforeSearch] returns
    contains a space, a dot, a [|] or a [-]. *)
Theorem arrange_segments_plain (fileToSearchIn : option Document)
    (searchSentence : string) (segments : list string) :
  Kubesec.arrangeKubesecSelectorBeforeSearch fileToSearchIn searchSentence
  = Normal segments ->
  Forall (fun segment => allChars plainChar segment = true) segments.
Proof.
  unfold Kubesec.arrangeKubesecSelectorBeforeSearch.
  pose proof (splitSelector_plain searchSentence) as Hsplit.
  destruct (Kubesec.splitSelector searchSentence) as [|first rest];
    [discriminate|].
  inversion Hsplit as [|? ? Hfirst Hrest]; subst.
  cbn [Kubesec.stripArrayMarker].
  assert (Hcollapse :
            forall tokens,
              Forall (fun segment => allChars plainChar segment = true) tokens ->
              Kubesec.collapseMetadata tokens = Normal segments ->
              Forall (fun segment => allChars plainChar segment = true) segments).
  { intros [|token tokens] Htokens; cbn [Kubesec.collapseMetadata];
      [discriminate|].
    destruct (includes token "metadata"); intros [= <-];
      [repeat constructor|exact Htokens]. }
  destruct (includes first "containers[]"); apply Hcollapse.
  - constructor; [|exact Hrest].
    now apply allChars_slice, allChars_trimEnd, allChars_trimStart.
  - now constructor.
Qed.

Lemma arrange_segments_plain_witness :
  Forall (fun segment => allChars plainChar segment = true)
    ["containers"; "securityContext"; "capabilities"; "drop"].
Proof.
  apply (arrange_segments_plain None
           "containers[] .securityContext .capabilities .drop | index(ALL)").
  reflexivity.
Defined.

Lemma substring_whole (s : string) : substring 0 (String.length s) s = s.
Proof. rewrite substring_take. now apply take_beyond. Qed.

Lemma substring_drop (n : nat) (s : string) :
  substring n (String.length s - n) s = drop n s.
Proof.
  revert s; induction n as [|n IH]; intros s.
  - rewrite Nat.sub_0_r. destruct s; apply substring_whole.
  - destruct s as [|c s]; [reflexivity|]. cbn [String.length substring drop].
    apply IH.
Qed.

Lemma slice_to_end (s : string) (n : nat) :
  (n <= String.length s)%nat ->
  slice s (Z.of_nat n) (Z.of_nat (String.length s)) = drop n s.
Proof.
  intros Hn. unfold slice.
  replace (Z.of_nat n <? 0) with false by (symmetry; apply Z.ltb_ge; lia).
  replace (Z.of_nat (String.length s) <? 0) with false
    by (symmetry; apply Z.ltb_ge; lia).
  rewrite Z.min_l by lia. rewrite Z.min_id.
  rewrite <- Nat2Z.inj_sub by lia. rewrite !Nat2Z.id.
  apply substring_drop.
Qed.

Lemma dropLeadingDot_dot (s : string) :
  Kubesec.dropLeadingDot (String "."%char s) = s.
Proof.
  unfold Kubesec.dropLeadingDot. cbn [charAt0]. rewrite Ascii.eqb_refl.
  apply (slice_to_end (String "."%char s) 1). cbn [String.length]. lia.
Qed.

Lemma dropLeadingDot_other (s : string) :
  startsWith s "." = false -> Kubesec.dropLeadingDot s = s.
Proof.
  destruct s as [|c s]; [reflexivity|].
  rewrite startsWith_one. intros H.
  unfold Kubesec.dropLeadingDot. cbn [charAt0].
  now rewrite Ascii.eqb_sym, H.
Qed.

(** X3: a dot in front of a selector that does not start with one does not
    change what [arrangeKubesecSelectorBeforeSearch] returns. *)
Theorem arrange_leading_dot (fileToSearchIn : option Document)
    (searchSentence : string) :
  startsWith searchSentence "." = false ->
  Kubesec.arrangeKubesecSelectorBeforeSearch fileToSearchIn
    (String "."%char searchSentence)
  = Kubesec.arrangeKubesecSelectorBeforeSearch fileToSearchIn searchSentence.
Proof.
  intros H.
  unfold Kubesec.arrangeKubesecSelectorBeforeSearch, Kubesec.splitSelector.
  now rewrite dropLeadingDot_dot, dropLeadingDot_other.
Qed.

Lemma arrange_leading_dot_witness :
  Kubesec.arrangeKubesecSelectorBeforeSearch None ".spec .serviceAccountName"
  = Kubesec.arrangeKubesecSelectorBeforeSearch None "spec .serviceAccountName".
Proof.
  apply (arrange_leading_dot None "spec .serviceAccountName"). reflexivity.
Defined.

(* ----------------------------------------------------------------- *)
(** ** The lines of a file *)

Lemma trimStart_whitespace (s : string) :
  allChars isWhiteSpace s = true -> trimStart s = "".
Proof.
  induction s as [|c s IH]; [reflexivity|].
  cbn [allChars trimStart]. intros H. apply andb_true_iff in H as [Hc Hs].
  rewrite Hc. now apply IH.
Qed.

(** X4: when the file can be read, [readFileByLines] (either copy) returns
    at least one line, and no line contains a newline; a file that is empty
    or holds white space only is read as the single empty line. *)
Theorem readFileByLines_lines (fs : FileSystem) (path content : string) :
  fs path = Some content ->
  exists first rest,
    outcome (GateFunctions.readFileByLines fs path) = Normal (Some (first :: rest))
    /\ outcome (Kubesec.readFileByLines fs path) = Normal (Some (first :: rest))
    /\ Forall
         (fun line => allChars (fun c => negb (Ascii.eqb c newline)) line = true)
         (first :: rest)
    /\ (allChars isWhiteSpace content = true -> first :: rest = [""]).
Proof.
  intros Hread.
  destruct (split_nonempty newline (trim content)) as [first [rest Hsplit]].
  exists first, rest.
  rewrite readFileByLines_same.
  unfold GateFunctions.readFileByLines. rewrite Hread, <- Hsplit.
  split; [reflexivity|]. split; [reflexivity|]. split.
  - eapply Forall_impl;
      [|apply (allChars_split (fun _ => true) newline (trim content))].
    + intros line. apply allChars_weaken. now intros c.
    + clear. induction (trim content) as [|c s IH]; [reflexivity|exact IH].
  - intros Hws. unfold trim. now rewrite trimStart_whitespace.
Qed.

Lemma readFileByLines_lines_witness :
  exists first rest,
    outcome (GateFunctions.readFileByLines (everyFile duplicatedContent) "pod.yaml")
    = Normal (Some (first :: rest))
    /\ outcome (Kubesec.readFileByLines (everyFile duplicatedContent) "pod.yaml")
       = Normal (Some (first :: rest))
    /\ Forall
         (fun line => allChars (fun c => negb (Ascii.eqb c newline)) line = true)
         (first :: rest)
    /\ (allChars isWhiteSpace duplicatedContent = true -> first :: rest = [""]).
Proof.
  apply (readFileByLines_lines (everyFile duplicatedContent) "pod.yaml"
           duplicatedContent).
  reflexivity.
Defined.

(* ----------------------------------------------------------------- *)
(** ** The name of a file in the list of secrets *)

Lemma lastIndexOfFrom_lastOccurrence (s pat : string) (i : Z) :
  0 <= i ->
  lastIndexOfFrom s pat i =
  match lastOccurrence s pat with
  | Some n => i + Z.of_nat n
  | None => -1
  end.
Proof.
  revert i; induction s as [|c s IH]; intros i Hi;
    cbn [lastIndexOfFrom lastOccurrence].
  - destruct (startsWith "" pat); lia.
  - rewrite IH by lia.
    destruct (lastOccurrence s pat) as [n|].
    + replace (i + 1 + Z.of_nat n =? -1) with false
        by (symmetry; apply Z.eqb_neq; lia).
      lia.
    + rewrite Z.eqb_refl. destruct (startsWith (String c s) pat); lia.
Qed.

Lemma lastOccurrence_absent (x : ascii) (s : string) :
  allChars (fun c => negb (Ascii.eqb c x)) s = true ->
  lastOccurrence s (String x "") = None.
Proof.
  induction s as [|c s IH]; [reflexivity|].
  cbn [allChars lastOccurrence]. intros H. apply andb_true_iff in H as [Hc Hs].
  rewrite IH, startsWith_one, Ascii.eqb_sym by assumption.
  now apply negb_true_iff in Hc as ->.
Qed.

Lemma lastOccurrence_last (x : ascii) (before after : string) :
  allChars (fun c => negb (Ascii.eqb c x)) after = true ->
  lastOccurrence (before ++ String x after) (String x "")
  = Some (String.length before).
Proof.
  intros Hafter. induction before as [|c before IH];
    cbn [append lastOccurrence String.length].
  - now rewrite lastOccurrence_absent, startsWith_one, Ascii.eqb_refl.
  - now rewrite IH.
Qed.

Lemma drop_append (a b : string) : drop (String.length a) (a ++ b) = b.
Proof. induction a as [|c a IH]; [now destruct b|exact IH]. Qed.

Lemma length_append (a b : string) :
  String.length (a ++ b) = (String.length a + String.length b)%nat.
Proof. induction a as [|c a IH]; cbn [append String.length]; [reflexivity|now rewrite IH]. Qed.

Lemma substring_none (n : nat) (s : string) : substring n 0 s = "".
Proof.
  revert s; induction n as [|n IH]; intros [|c s]; cbn [substring];
    try reflexivity. apply IH.
Qed.

Lemma length_substring (n m : nat) (s : string) :
  (String.length (substring n m s) <= m)%nat.
Proof.
  revert n m; induction s as [|c s IH]; intros [|n] [|m]; cbn [substring String.length];
    try lia.
  - specialize (IH 0%nat m). lia.
  - apply (IH n 0%nat).
  - apply (IH n (S m)).
Qed.

(** X5: for a path that ends with a backslash and a name without
    backslash, the file name that [scanData] shows is that name. *)
Theorem fileNameOf_after_last_backslash (directory name : string) :
  allChars (fun c => negb (Ascii.eqb c "\"%char)) name = true ->
  Whispers.fileNameOf (directory ++ String "\"%char name) = name.
Proof.
  intros Hname. unfold Whispers.fileNameOf, lastIndexOf.
  rewrite lastIndexOfFrom_lastOccurrence by lia.
  rewrite lastOccurrence_last by assumption. rewrite Z.add_0_l.
  rewrite slice_to_end by (rewrite length_append; lia).
  rewrite drop_append. unfold sliceFrom.
  apply (slice_to_end (String "\"%char name) 1). cbn [String.length]. lia.
Qed.

Lemma fileNameOf_after_last_backslash_witness :
  Whispers.fileNameOf "C:\work\deploy\pod.yaml" = "pod.yaml".
Proof.
  apply (fileNameOf_after_last_backslash "C:\work\deploy" "pod.yaml").
  reflexivity.
Defined.

(** X6: for a path without backslash, as on a system whose paths use [/],
    the file name that [scanData] shows is empty. *)
Theorem fileNameOf_without_backslash (filePath : string) :
  allChars (fun c => negb (Ascii.eqb c "\"%char)) filePath = true ->
  Whispers.fileNameOf filePath = "".
Proof.
  intros Hpath. unfold Whispers.fileNameOf, lastIndexOf.
  rewrite lastIndexOfFrom_lastOccurrence by lia.
  rewrite lastOccurrence_absent by assumption.
  unfold sliceFrom.
  set (tail := slice filePath (-1) (Z.of_nat (String.length filePath))).
  assert (Htail : (String.length tail <= 1)%nat).
  { subst tail. unfold slice.
    eapply Nat.le_trans; [apply length_substring|].
    replace (-1 <? 0) with true by reflexivity.
    replace (Z.of_nat (String.length filePath) <? 0) with false
      by (symmetry; apply Z.ltb_ge; lia).
    lia. }
  unfold slice.
  replace (1 <? 0) with false by reflexivity.
  replace (Z.of_nat (String.length tail) <? 0) with false
    by (symmetry; apply Z.ltb_ge; lia).
  replace (Z.to_nat
             (Z.min (Z.of_nat (String.length tail)) (Z.of_nat (String.length tail))
              - Z.min 1 (Z.of_nat (String.length tail)))) with 0%nat by lia.
  apply substring_none.
Qed.

Lemma fileNameOf_without_backslash_witness :
  Whispers.fileNameOf "/home/work/deploy/pod.yaml" = "".
Proof.
  apply (fileNameOf_without_backslash "/home/work/deploy/pod.yaml").
  reflexivity.
Defined.

(* ----------------------------------------------------------------- *)
(** ** The files a gate sends *)

Lemma endsWith_suffix (s suffix : string) :
  endsWith s suffix = true <-> exists stem, s = (stem ++ suffix)%string.
Proof.
  split.
  - induction s as [|c s IH]; cbn [endsWith]; intros H;
      apply orb_true_iff in H as [H|H].
    + apply String.eqb_eq in H as <-. now exists "".
    + discriminate.
    + apply String.eqb_eq in H as <-. now exists "".
    + destruct (IH H) as [stem ->]. now exists (String c stem).
  - intros [stem ->]. induction stem as [|c stem IH]; cbn [append].
    + destruct suffix; cbn [endsWith]; now rewrite String.eqb_refl.
    + cbn [endsWith]. rewrite IH. apply orb_true_r.
Qed.

Lemma pushes_filter {A} (keep : A -> bool) (items pushed : list A) :
  fold_left (fun acc x => if keep x then acc ++ [x] else acc) items pushed
  = pushed ++ filter keep items.
Proof.
  revert pushed; induction items as [|x items IH]; intros pushed;
    cbn [fold_left filter].
  - now rewrite app_nil_r.
  - rewrite IH. destruct (keep x); [|reflexivity].
    now rewrite <- app_assoc.
Qed.

Lemma pushes_flat_map {A B} (step : list B -> A -> list B) (found : A -> list B)
    (items : list A) (pushed : list B) :
  (forall acc x, step acc x = acc ++ found x) ->
  fold_left step items pushed = pushed ++ flat_map found items.
Proof.
  intros Hstep. revert pushed; induction items as [|x items IH]; intros pushed;
    cbn [fold_left flat_map].
  - now rewrite app_nil_r.
  - now rewrite IH, Hstep, <- app_assoc.
Qed.

Lemma kubesec_getFiles_filter (workspaceFolders : option (list string))
    (getAllFilesSync : string -> list string) :
  Kubesec.getFiles workspaceFolders getAllFilesSync
  = filter (fun filename => endsWith filename ".yaml")
      (flat_map getAllFilesSync
         (match workspaceFolders with Some folders => folders | None => [] end)).
Proof.
  unfold Kubesec.getFiles, Kubesec.fileType.
  rewrite (pushes_flat_map _
             (fun path => filter (fun filename => endsWith filename ".yaml")
                            (getAllFilesSync path))).
  - cbn [app].
    induction (match workspaceFolders with Some folders => folders | None => [] end)
      as [|path paths IH]; [reflexivity|].
    cbn [flat_map]. now rewrite filter_app, IH.
  - intros acc path. apply pushes_filter.
Qed.

(** X7: [getFiles] of [kubesec.js] returns, in the order of the listing,
    the files under the folders of the workspace whose name ends with
    [.yaml], and nothing else; without a workspace it returns nothing. *)
Theorem kubesec_getFiles_yaml (workspaceFolders : option (list string))
    (getAllFilesSync : string -> list string) (filename : string) :
  (In filename (Kubesec.getFiles workspaceFolders getAllFilesSync) <->
   (exists folders path,
      workspaceFolders = Some folders /\ In path folders
      /\ In filename (getAllFilesSync path))
   /\ exists stem, filename = (stem ++ ".yaml")%string)
  /\ Kubesec.getFiles workspaceFolders getAllFilesSync
     = filter (fun name => endsWith name ".yaml")
         (flat_map getAllFilesSync
            (match workspaceFolders with Some folders => folders | None => [] end))
  /\ Kubesec.getFiles None getAllFilesSync = [].
Proof.
  split; [|split; [apply kubesec_getFiles_filter|reflexivity]].
  rewrite kubesec_getFiles_filter, filter_In, in_flat_map, endsWith_suffix.
  split.
  - intros [[path [Hpath Hfile]] Hstem]. split; [|exact Hstem].
    destruct workspaceFolders as [folders|]; [|contradiction].
    now exists folders, path.
  - intros [[folders [path [-> [Hpath Hfile]]]] Hstem]. split; [|exact Hstem].
    now exists path.
Qed.

Lemma gate_getFiles_flat (workspaceFolders : option (list string))
    (getAllFilesSync : string -> list string)
    (searchSettings : GateFunctions.GetFileSettings)
    (files : option (list string)) :
  GateFunctions.getFiles workspaceFolders getAllFilesSync searchSettings files
  = flat_map
      (fun path =>
         flat_map
           (extensionMatches (GateFunctions.fileExtension searchSettings))
           (candidates getAllFilesSync files path))
      (searchedPaths workspaceFolders searchSettings).
Proof.
  unfold GateFunctions.getFiles.
  rewrite (pushes_flat_map _
             (fun path =>
                flat_map
                  (extensionMatches (GateFunctions.fileExtension searchSettings))
                  (candidates getAllFilesSync files path))); [reflexivity|].
  intros acc path.
  apply (pushes_flat_map _
           (extensionMatches (GateFunctions.fileExtension searchSettings))).
  intros acc' filename.
  apply (pushes_flat_map _
           (fun extension => if endsWith filename extension then [filename] else [])).
  intros acc'' extension.
  destruct (endsWith filename extension); [reflexivity|now rewrite app_nil_r].
Qed.

Lemma in_extensionMatches (extensions : list string) (filename found : string) :
  In found (extensionMatches extensions filename) <->
  found = filename
  /\ exists extension, In extension extensions
                       /\ endsWith filename extension = true.
Proof.
  unfold extensionMatches. rewrite in_flat_map. split.
  - intros [extension [Hin Hfound]].
    destruct (endsWith filename extension) eqn:E; [|contradiction].
    destruct Hfound as [<-|[]]. split; [reflexivity|]. now exists extension.
  - intros [-> [extension [Hin E]]]. exists extension. split; [exact Hin|].
    rewrite E. now left.
Qed.

(** X8: [GateFunctions.getFiles] returns exactly the names that end with
    one of the extensions of the settings and that are, for one of the
    paths it goes through, among the changed files when there are any and
    in the listing of the path otherwise. *)
Theorem gate_getFiles_members (workspaceFolders : option (list string))
    (getAllFilesSync : string -> list string)
    (searchSettings : GateFunctions.GetFileSettings)
    (files : option (list string)) (filename : string) :
  In filename
     (GateFunctions.getFiles workspaceFolders getAllFilesSync searchSettings files)
  <->
  (exists path,
     In path (searchedPaths workspaceFolders searchSettings)
     /\ In filename (candidates getAllFilesSync files path))
  /\ (exists extension stem,
        In extension (GateFunctions.fileExtension searchSettings)
        /\ filename = (stem ++ extension)%string).
Proof.
  rewrite gate_getFiles_flat, in_flat_map. split.
  - intros [path [Hpath Hfound]].
    apply in_flat_map in Hfound as [candidate [Hcandidate Hfound]].
    apply in_extensionMatches in Hfound as [-> [extension [Hext Hends]]].
    split; [now exists path|].
    apply endsWith_suffix in Hends as [stem Hstem]. now exists extension, stem.
  - intros [[path [Hpath Hcandidate]] [extension [stem [Hext Hstem]]]].
    exists path. split; [exact Hpath|].
    apply in_flat_map. exists filename. split; [exact Hcandidate|].
    apply in_extensionMatches. split; [reflexivity|].
    exists extension. split; [exact Hext|].
    apply endsWith_suffix. now exists stem.
Qed.

(** X9: [GateFunctions.getFiles] returns nothing when it has no path to go
    through, which is the case when [pathToSearch] is an empty array and
    when it is left out and the workspace has no folder; the changed files
    are then not looked at. *)
Theorem gate_getFiles_without_path (workspaceFolders : option (list string))
    (getAllFilesSync : string -> list string)
    (searchSettings : GateFunctions.GetFileSettings)
    (files : option (list string)) :
  GateFunctions.pathToSearch searchSettings = Some []
  \/ (GateFunctions.pathToSearch searchSettings = None
      /\ (workspaceFolders = None \/ workspaceFolders = Some [])) ->
  GateFunctions.getFiles workspaceFolders getAllFilesSync searchSettings files = [].
Proof.
  intros Hpaths. rewrite gate_getFiles_flat. unfold searchedPaths.
  destruct Hpaths as [->|[-> [->| ->]]]; reflexivity.
Qed.

Lemma gate_getFiles_without_path_witness :
  GateFunctions.getFiles (Some ["C:\work"]) (fun _ => ["C:\work\pod.yaml"])
    {| GateFunctions.fileExtension := [".yaml"];
       GateFunctions.pathToSearch := Some [] |}
    (Some ["C:\work\pod.yaml"])
  = [].
Proof.
  apply (gate_getFiles_without_path (Some ["C:\work"])
           (fun _ => ["C:\work\pod.yaml"])
           {| GateFunctions.fileExtension := [".yaml"];
              GateFunctions.pathToSearch := Some [] |}
           (Some ["C:\work\pod.yaml"])).
  left. reflexivity.
Defined.

Lemma flat_map_constant {A B} (chunk : list B) (items : list A) :
  flat_map (fun _ => chunk) items = concat (repeat chunk (List.length items)).
Proof.
  induction items as [|x items IH]; [reflexivity|].
  cbn [flat_map List.length repeat concat]. now rewrite IH.
Qed.

Lemma length_concat_repeat {B} (chunk : list B) (n : nat) :
  List.length (concat (repeat chunk n)) = (n * List.length chunk)%nat.
Proof.
  induction n as [|n IH]; [reflexivity|].
  cbn [repeat concat]. rewrite length_app, IH. lia.
Qed.

(** X10: when there are changed files, [GateFunctions.getFiles] goes
    through them once for every path, so each changed file that matches is
    returned as many times as there are paths (and once more for every
    further extension it ends with). *)
Theorem gate_getFiles_changed_per_path (workspaceFolders : option (list string))
    (getAllFilesSync : string -> list string)
    (searchSettings : GateFunctions.GetFileSettings)
    (changed : string) (more : list string) :
  GateFunctions.getFiles workspaceFolders getAllFilesSync searchSettings
    (Some (changed :: more))
  = concat
      (repeat
         (flat_map (extensionMatches (GateFunctions.fileExtension searchSettings))
                   (changed :: more))
         (List.length (searchedPaths workspaceFolders searchSettings)))
  /\ List.length
       (GateFunctions.getFiles workspaceFolders getAllFilesSync searchSettings
          (Some (changed :: more)))
     = (List.length (searchedPaths workspaceFolders searchSettings)
        * List.length
            (flat_map (extensionMatches (GateFunctions.fileExtension searchSettings))
                      (changed :: more)))%nat.
Proof.
  assert (E : GateFunctions.getFiles workspaceFolders getAllFilesSync
                searchSettings (Some (changed :: more))
              = concat
                  (repeat
                     (flat_map
                        (extensionMatches (GateFunctions.fileExtension searchSettings))
                        (changed :: more))
                     (List.length (searchedPaths workspaceFolders searchSettings)))).
  { rewrite gate_getFiles_flat. cbn [candidates]. apply flat_map_constant. }
  split; [exact E|]. rewrite E. apply length_concat_repeat.
Qed.

(* ----------------------------------------------------------------- *)
(** ** The secrets of a file *)

Lemma forEachSecret_step (hierarchySearchInFile : Locator)
    (documentText : option Document) (sec : string) (later : list string)
    (searchResults : SearchResult) :
  hierarchySearchInFile documentText (Whispers.secretSearchSentence sec)
  = Some searchResults ->
  outcome (Whispers.forEachSecret hierarchySearchInFile documentText (sec :: later))
  = match outcome (Whispers.forEachSecret hierarchySearchInFile
                     (Some (fileToSearchIn searchResults)) later) with
    | Normal messages =>
        Normal ({| Whispers.location :=
                     {| Whispers.lineNumber := requestedLine searchResults;
                        Whispers.columnNumber := 0 |};
                   Whispers.message := sec |} :: messages)
    | TypeError => TypeError
    end
  /\ events (Whispers.forEachSecret hierarchySearchInFile documentText (sec :: later))
     = Searched documentText (Whispers.secretSearchSentence sec)
       :: events (Whispers.forEachSecret hierarchySearchInFile
                    (Some (fileToSearchIn searchResults)) later).
Proof.
  intros Hsearch. cbn [Whispers.forEachSecret]. unfold emit.
  rewrite outcome_bind, events_bind, Hsearch.
  destruct (Whispers.forEachSecret hierarchySearchInFile
              (Some (fileToSearchIn searchResults)) later) as [[messages|] log];
    cbn; now rewrite ?app_nil_r.
Qed.

Lemma forEachSecret_answered (hierarchySearchInFile : Locator)
    (secrets : list string) :
  (forall documentText searchSentence,
     hierarchySearchInFile documentText searchSentence <> None) ->
  forall documentText,
  exists messages,
    outcome (Whispers.forEachSecret hierarchySearchInFile documentText secrets)
    = Normal messages
    /\ map Whispers.message messages = secrets
    /\ Forall (fun found => Whispers.columnNumber (Whispers.location found) = 0)
         messages
    /\ Forall2
         (fun found call =>
            exists searchResult,
              hierarchySearchInFile (fst call) (snd call) = Some searchResult
              /\ Whispers.lineNumber (Whispers.location found)
                 = requestedLine searchResult)
         messages
         (searches (events (Whispers.forEachSecret hierarchySearchInFile
                              documentText secrets))).
Proof.
  intros Hanswers.
  induction secrets as [|sec later IH]; intros documentText.
  - exists []. repeat split; constructor.
  - destruct (hierarchySearchInFile documentText (Whispers.secretSearchSentence sec))
      as [searchResults|] eqn:Hsearch; [|now apply Hanswers in Hsearch].
    destruct (forEachSecret_step _ _ _ later _ Hsearch) as [Houtcome Hevents].
    destruct (IH (Some (fileToSearchIn searchResults)))
      as [messages [Hlater [Htexts [Hcolumns Hlines]]]].
    rewrite Houtcome, Hevents, Hlater. eexists. split; [reflexivity|].
    cbn [map searches Whispers.message Whispers.location Whispers.columnNumber
           Whispers.lineNumber].
    rewrite Htexts. split; [reflexivity|]. split.
    + constructor; [reflexivity|exact Hcolumns].
    + constructor; [|exact Hlines].
      exists searchResults. now split.
Qed.

(** X11: when [hierarchySearchInFile] returns a result for every call,
    [scanData] completes the secrets of a file with one message for each
    secret, in their order: the message is the secret, its column is 0 and
    its line is the [requestedLine] of the search made for that secret. *)
Theorem scanSecrets_one_message_each (fs : FileSystem)
    (hierarchySearchInFile : Locator) (filePath : string) (secrets : list string) :
  (forall documentText searchSentence,
     hierarchySearchInFile documentText searchSentence <> None) ->
  exists messages,
    outcome (Whispers.scanSecretsOfFile fs hierarchySearchInFile filePath secrets)
    = Normal messages
    /\ map Whispers.message messages = secrets
    /\ Forall (fun found => Whispers.columnNumber (Whispers.location found) = 0)
         messages
    /\ Forall2
         (fun found call =>
            exists searchResult,
              hierarchySearchInFile (fst call) (snd call) = Some searchResult
              /\ Whispers.lineNumber (Whispers.location found)
                 = requestedLine searchResult)
         messages
         (searches (events (Whispers.scanSecretsOfFile fs hierarchySearchInFile
                              filePath secrets))).
Proof.
  intros Hanswers.
  destruct secrets as [|sec later].
  - exists []. repeat split; constructor.
  - unfold Whispers.scanSecretsOfFile.
    destruct (GateFunctions.readFileByLines fs filePath) as [[documentText|] log] eqn:Hread.
    + rewrite outcome_bind, events_bind, searches_app.
      replace (searches log) with (@nil (option Document * list string)).
      * apply forEachSecret_answered, Hanswers.
      * pose proof (gate_read_searches fs filePath) as H.
        rewrite Hread in H. now rewrite <- H.
    + unfold GateFunctions.readFileByLines in Hread.
      destruct (fs filePath); discriminate.
Qed.

Lemma scanSecrets_one_message_each_witness :
  exists messages,
    outcome (Whispers.scanSecretsOfFile (everyFile duplicatedContent)
               (fun documentText searchSentence =>
                  match documentText with
                  | Some document =>
                      Search.locator documentText searchSentence
                  | None =>
                      Some {| requestedLine := -1; numOfTabs := 0;
                              fileToSearchIn := [] |}
                  end)
               "pod.yaml" ["spec key"; "spec key"])
    = Normal messages
    /\ map Whispers.message messages = ["spec key"; "spec key"].
Proof.
  destruct (scanSecrets_one_message_each (everyFile duplicatedContent)
              (fun documentText searchSentence =>
                 match documentText with
                 | Some document =>
                     Search.locator documentText searchSentence
                 | None =>
                     Some {| requestedLine := -1; numOfTabs := 0;
                             fileToSearchIn := [] |}
                 end)
              "pod.yaml" ["spec key"; "spec key"])
    as [messages [Houtcome [Htexts _]]].
  - intros [document|] searchSentence; discriminate.
  - exists messages. now split.
Defined.

(** X12: the loop over the secrets of a file raises exactly when one of
    the searches it makes returns a falsy value; the loop ends there, so
    that search is the last one. *)
Theorem scanSecrets_raises_without_result (hierarchySearchInFile : Locator)
    (secrets : list string) (documentText : option Document) :
  outcome (Whispers.forEachSecret hierarchySearchInFile documentText secrets)
  = TypeError
  <->
  exists calls call,
    searches (events (Whispers.forEachSecret hierarchySearchInFile
                        documentText secrets)) = calls ++ [call]
    /\ hierarchySearchInFile (fst call) (snd call) = None.
Proof.
  revert documentText.
  induction secrets as [|sec later IH]; intros documentText.
  - split; [discriminate|]. intros [calls [call [H _]]]. now destruct calls.
  - destruct (hierarchySearchInFile documentText (Whispers.secretSearchSentence sec))
      as [searchResults|] eqn:Hsearch.
    + destruct (forEachSecret_step _ _ _ later _ Hsearch) as [-> ->].
      cbn [searches]. specialize (IH (Some (fileToSearchIn searchResults))).
      split.
      * intros H.
        destruct (outcome (Whispers.forEachSecret hierarchySearchInFile
                             (Some (fileToSearchIn searchResults)) later))
          as [messages|]; [discriminate|].
        destruct (proj1 IH eq_refl) as [calls [call [Hcalls Hnone]]].
        exists ((documentText, Whispers.secretSearchSentence sec) :: calls), call.
        cbn [app]. now rewrite Hcalls.
      * intros [calls [call [Hcalls Hnone]]].
        destruct calls as [|first calls]; cbn [app] in Hcalls.
        -- injection Hcalls as Hcall _. subst call. cbn [fst snd] in Hnone.
           congruence.
        -- injection Hcalls as _ Hcalls.
           rewrite (proj2 IH); [reflexivity|]. now exists calls, call.
    + cbn [Whispers.forEachSecret]. rewrite Hsearch. cbn. split; [|reflexivity].
      intros _. exists [], (documentText, Whispers.secretSearchSentence sec).
      now split.
Qed.

(* ----------------------------------------------------------------- *)
(** ** The kubesec caller on a file that cannot be read *)

(** X13: when the file of the document cannot be read,
    [showTextDocumentWithErrorsKubesec] shows [There is no such file!] once
    for every finding before it searches for any of them, and then goes
    through the findings with [undefined] as document. *)
Theorem kubesec_unreadable_messages_first (fs : FileSystem)
    (hierarchySearchInFile : Locator) (kubesecResult : list Kubesec.Finding)
    (textDocument : Kubesec.TextDocument) :
  fs (Kubesec.fileName textDocument) = None ->
  Kubesec.showTextDocumentWithErrorsKubesec fs hierarchySearchInFile
    kubesecResult textDocument
  = repeat (ShowInformationMessage "There is no such file!")
      (List.length kubesecResult)
    ++ flat_map
         (fun res =>
            events (Kubesec.resolveFinding hierarchySearchInFile textDocument
                      res None))
         kubesecResult.
Proof.
  intros Hfail.
  assert (Hread : Kubesec.readFileByLines fs (Kubesec.fileName textDocument)
                  = (Normal None, [ShowInformationMessage "There is no such file!"])).
  { unfold Kubesec.readFileByLines. now rewrite Hfail. }
  rewrite (kubesec_log fs hierarchySearchInFile kubesecResult textDocument None)
    by now rewrite Hread.
  f_equal. rewrite Hread. cbn [events snd].
  induction kubesecResult as [|res later IH]; [reflexivity|].
  cbn [flat_map List.length repeat app]. now rewrite IH.
Qed.

Lemma kubesec_unreadable_messages_first_witness :
  Kubesec.showTextDocumentWithErrorsKubesec noFile
    (fun _ _ => Some {| requestedLine := -1; numOfTabs := 0; fileToSearchIn := [] |})
    [{| Kubesec.selector := ".spec .hostPID" |};
     {| Kubesec.selector := ".spec .hostIPC" |}] manifest
  = [ShowInformationMessage "There is no such file!";
     ShowInformationMessage "There is no such file!";
     Searched None ["spec"; "hostPID"];
     ShowInformationMessage ".spec .hostPID not found!";
     Searched None ["spec"; "hostIPC"];
     ShowInformationMessage ".spec .hostIPC not found!"].
Proof.
  apply (kubesec_unreadable_messages_first noFile
           (fun _ _ => Some {| requestedLine := -1; numOfTabs := 0;
                               fileToSearchIn := [] |})
           [{| Kubesec.selector := ".spec .hostPID" |};
            {| Kubesec.selector := ".spec .hostIPC" |}] manifest).
  reflexivity.
Defined.

(* ----------------------------------------------------------------- *)
(** ** The children of a custom gate *)

Lemma firstWithResults_readable (items resultArr : list CustomGate.Category) :
  Forall readable items ->
  CustomGate.firstWithResults items resultArr
  = if existsb hasResults items
    then Normal (map CustomGate.CategoryItem resultArr)
    else Normal [CustomGate.PlainItem "No results have been found"
                   CustomGate.NotCollapsible].
Proof.
  induction 1 as [|item items [itemData [found [Hdata Hresult]]] Hitems IH];
    [reflexivity|].
  cbn [CustomGate.firstWithResults existsb]. unfold hasResults at 1.
  rewrite Hdata, Hresult.
  destruct found as [|first found]; cbn [List.length Nat.ltb Nat.leb orb];
    [exact IH|reflexivity].
Qed.

(** X14: [getMoreChildren] of a custom gate.  For a gate that is not
    active it returns no item.  For an active gate whose scan data has, for
    every label, an entry with results that can be read, it does not raise:
    it returns one category for each label, in the order of the labels,
    when some label has a result, and the single item
    [No results have been found] when none has. *)
Theorem getMoreChildren_categories (labels : list string)
    (gateScanData : option (list CustomGate.ResultsList)) :
  Forall readable (categories labels gateScanData) ->
  CustomGate.getMoreChildren false labels gateScanData = Normal []
  /\ CustomGate.getMoreChildren true labels gateScanData
     = if existsb hasResults (categories labels gateScanData)
       then Normal (map CustomGate.CategoryItem (categories labels gateScanData))
       else Normal [CustomGate.PlainItem "No results have been found"
                      CustomGate.NotCollapsible].
Proof.
  intros Hreadable. split; [reflexivity|].
  unfold CustomGate.getMoreChildren.
  now apply firstWithResults_readable.
Qed.

Lemma getMoreChildren_categories_witness :
  CustomGate.getMoreChildren false ["secrets"]
    (Some [{| CustomGate.label := "secrets"; CustomGate.result := Some [] |}])
  = Normal []
  /\ CustomGate.getMoreChildren true ["secrets"]
       (Some [{| CustomGate.label := "secrets"; CustomGate.result := Some [] |}])
     = Normal [CustomGate.PlainItem "No results have been found"
                 CustomGate.NotCollapsible].
Proof.
  apply (getMoreChildren_categories ["secrets"]
           (Some [{| CustomGate.label := "secrets";
                     CustomGate.result := Some [] |}])).
  repeat constructor.
  exists {| CustomGate.label := "secrets"; CustomGate.result := Some [] |}, [].
  split; reflexivity.
Defined.

Lemma firstWithResults_missing (before after resultArr : list CustomGate.Category)
    (item : CustomGate.Category) :
  Forall readable before ->
  existsb hasResults before = false ->
  (CustomGate.data item = None
   \/ exists itemData,
        CustomGate.data item = Some itemData
        /\ CustomGate.result itemData = None) ->
  CustomGate.firstWithResults (before ++ item :: after) resultArr = TypeError.
Proof.
  intros Hreadable Hnone Hmissing.
  induction Hreadable as [|b before [itemData [found [Hdata Hresult]]] Hrest IH];
    cbn [app CustomGate.firstWithResults].
  - destruct Hmissing as [->|[itemData [-> ->]]]; reflexivity.
  - cbn [existsb] in Hnone. apply orb_false_iff in Hnone as [Hb Hnone].
    rewrite Hdata, Hresult.
    unfold hasResults in Hb. rewrite Hdata, Hresult in Hb.
    destruct found as [|first found]; [|discriminate].
    cbn [List.length Nat.ltb Nat.leb]. now apply IH.
Qed.

(** X15: [getMoreChildren] of an active custom gate raises when a label
    without entry in the scan data (or with an entry whose results are
    [undefined]) comes before every label that has a result, also when a
    later label has results. *)
Theorem getMoreChildren_raises (before after : list string) (l : string)
    (gateScanData : option (list CustomGate.ResultsList)) :
  Forall readable (categories before gateScanData) ->
  existsb hasResults (categories before gateScanData) = false ->
  (CustomGate.findResults gateScanData l = None
   \/ exists itemData,
        CustomGate.findResults gateScanData l = Some itemData
        /\ CustomGate.result itemData = None) ->
  CustomGate.getMoreChildren true (before ++ l :: after) gateScanData = TypeError.
Proof.
  intros Hreadable Hnone Hmissing. unfold CustomGate.getMoreChildren.
  rewrite map_app at 1. cbn [map].
  now apply firstWithResults_missing.
Qed.

Lemma getMoreChildren_raises_witness :
  CustomGate.getMoreChildren true ["secrets"; "functions"]
    (Some [{| CustomGate.label := "functions";
              CustomGate.result :=
                Some [{| CustomGate.filePath := "C:\work\pod.yaml";
                         CustomGate.fileName := "pod.yaml";
                         CustomGate.messages := [] |}] |}])
  = TypeError.
Proof.
  apply (getMoreChildren_raises [] ["functions"] "secrets").
  - constructor.
  - reflexivity.
  - left. reflexivity.
Defined.

(* ----------------------------------------------------------------- *)
(** ** Activating and deactivating a gate *)

Lemma setIsActive_effect (value : bool) (gate : Gate.Gate)
    (settings : Gate.Settings) :
  Gate.setIsActive value gate settings
  = ({| Gate.label := Gate.label gate; Gate.context := Gate.context gate;
        Gate.isActive := Gate.isActive gate; Gate._isActive := value |},
     Gate.withSetting settings (Gate.label gate) value,
     [Gate.ExecuteSetContext "templateGateActive" (Gate.isActive gate)]).
Proof. unfold Gate.setIsActive. cbn. now destruct (Gate.isActive gate). Qed.

Lemma last_after_first {A} (later : list A) (first fallback : A) :
  last (first :: later) fallback = last later first.
Proof.
  revert first fallback; induction later as [|x later IH];
    intros first fallback; [reflexivity|].
  change (last (first :: x :: later) fallback) with (last (x :: later) fallback).
  rewrite IH. symmetry. apply IH.
Qed.

(** X16: after any sequence of [activate()] and [deactivate()] calls on a
    gate, [getIsActive()] and the stored setting of the gate's label are
    those of the last call, the settings of the other labels are as before,
    and every [setContext] command that was sent set [templateGateActive]
    to the [isActive] the gate was constructed with, whatever was asked. *)
Theorem gate_calls (requests : list bool) (gate : Gate.Gate)
    (settings : Gate.Settings) :
  let '(after, stored, effects) := Gate.calls requests gate settings in
  Gate.label after = Gate.label gate
  /\ Gate.isActive after = Gate.isActive gate
  /\ Gate.getIsActive after = last requests (Gate.getIsActive gate)
  /\ stored (Gate.label gate)
     = last (map Some requests) (settings (Gate.label gate))
  /\ (forall key, key <> Gate.label gate -> stored key = settings key)
  /\ Forall
       (fun effect =>
          match effect with
          | Gate.ExecuteSetContext key value =>
              key = "templateGateActive" /\ value = Gate.isActive gate
          | Gate.ShowInformation _ => True
          end)
       effects.
Proof.
  revert gate settings.
  induction requests as [|request later IH]; intros gate settings.
  - cbn. repeat split. constructor.
  - cbn [Gate.calls].
    set (first := (if request then Gate.activate else Gate.deactivate) gate settings).
    assert (Hfirst :
              exists shown,
                first
                = ({| Gate.label := Gate.label gate; Gate.context := Gate.context gate;
                      Gate.isActive := Gate.isActive gate;
                      Gate._isActive := request |},
                   Gate.withSetting settings (Gate.label gate) request,
                   [Gate.ExecuteSetContext "templateGateActive" (Gate.isActive gate);
                    Gate.ShowInformation shown])).
    { subst first. unfold Gate.activate, Gate.deactivate.
      destruct request; rewrite setIsActive_effect; eexists; reflexivity. }
    destruct Hfirst as [shown ->].
    specialize (IH {| Gate.label := Gate.label gate; Gate.context := Gate.context gate;
                      Gate.isActive := Gate.isActive gate;
                      Gate._isActive := request |}
                   (Gate.withSetting settings (Gate.label gate) request)).
    destruct (Gate.calls later _ _) as [[after stored] effects].
    cbn [Gate.label Gate.isActive Gate.getIsActive Gate._isActive] in IH.
    destruct IH as [Hlabel [Hactive [Hlast [Hstored [Hothers Heffects]]]]].
    split; [exact Hlabel|]. split; [exact Hactive|]. split; [|split; [|split]].
    + rewrite Hlast. symmetry. apply last_after_first.
    + rewrite Hstored. unfold Gate.withSetting. rewrite String.eqb_refl.
      cbn [map]. symmetry. apply last_after_first.
    + intros key Hkey. rewrite (Hothers key Hkey). unfold Gate.withSetting.
      now apply String.eqb_neq in Hkey as ->.
    + cbn [app]. constructor; [now split|]. constructor; [exact I|exact Heffects].
Qed.

(* ----------------------------------------------------------------- *)
(** ** The levels of the template analyzer *)

Lemma hasLevel_exclusive {Result : Type} (level : Result -> option string)
    (name other : string) (e : Result) :
  name <> other ->
  TemplateAnalyzer.hasLevel Result level name e = true ->
  TemplateAnalyzer.hasLevel Result level other e = false.
Proof.
  unfold TemplateAnalyzer.hasLevel. intros Hne.
  destruct (level e) as [l|]; [|discriminate].
  intros H. apply String.eqb_eq in H as ->. now apply String.eqb_neq.
Qed.

(** X17: [getSarifFile] shows every result of the report under at most
    one of its four levels: a result is taken by the filter of a level
    exactly when its [level] is that string ([error], [warning], [note] or
    the string [undefined]), the four selections keep the order of the
    report and share no result, and a result without [level] or with
    another one ([none], for example) is in none of them. *)
Theorem levels_partition {Result : Type} (level : Result -> option string)
    (dataResult : list Result) :
  exists errors warnings notes unLevel,
    TemplateAnalyzer.errorDataResult Result level (Some dataResult) = Some errors
    /\ TemplateAnalyzer.warningDataResult Result level (Some dataResult)
       = Some warnings
    /\ TemplateAnalyzer.noteDataResult Result level (Some dataResult) = Some notes
    /\ TemplateAnalyzer.unLevelDataResult Result level (Some dataResult)
       = Some unLevel
    /\ (forall e, In e errors <-> In e dataResult /\ level e = Some "error")
    /\ (forall e, In e warnings <-> In e dataResult /\ level e = Some "warning")
    /\ (forall e, In e notes <-> In e dataResult /\ level e = Some "note")
    /\ (forall e, In e unLevel <-> In e dataResult /\ level e = Some "undefined")
    /\ (List.length errors + List.length warnings + List.length notes
        + List.length unLevel
        + List.length (filter (fun e => negb (shownLevel level e)) dataResult)
        = List.length dataResult)%nat.
Proof.
  do 4 eexists. do 4 (split; [reflexivity|]).
  assert (Hin : forall name e,
            In e (filter (TemplateAnalyzer.hasLevel Result level name) dataResult)
            <-> In e dataResult /\ level e = Some name).
  { intros name e. rewrite filter_In. unfold TemplateAnalyzer.hasLevel.
    destruct (level e) as [l|].
    - rewrite String.eqb_eq. split; intros [H1 H2]; split; congruence.
    - split; intros [H1 H2]; discriminate. }
  do 4 (split; [apply Hin|]).
  clear Hin. induction dataResult as [|e dataResult IH]; [reflexivity|].
  cbn [filter]. unfold shownLevel at 1.
  destruct (TemplateAnalyzer.hasLevel Result level "error" e) eqn:Eerror.
  { rewrite !(hasLevel_exclusive level "error" _ e) by (discriminate || assumption).
    cbn [orb negb List.length]. lia. }
  destruct (TemplateAnalyzer.hasLevel Result level "warning" e) eqn:Ewarning.
  { rewrite !(hasLevel_exclusive level "warning" _ e) by (discriminate || assumption).
    cbn [orb negb List.length]. lia. }
  destruct (TemplateAnalyzer.hasLevel Result level "note" e) eqn:Enote.
  { rewrite !(hasLevel_exclusive level "note" _ e) by (discriminate || assumption).
    cbn [orb negb List.length]. lia. }
  destruct (TemplateAnalyzer.hasLevel Result level "undefined" e);
    cbn [orb negb List.length]; lia.
Qed.
